(** * gistapi: searching a user's gists for a regular expression

    A shallow embedding of [gistapi/gistapi.py].  The module is a Flask
    application with one interesting handler, [search], and its helper
    [gists_for_user].  Both talk to GitHub through [requests]; the embedding
    keeps that conversation explicit: every GET goes through one operation
    that asks the remote service for an outcome and appends the exchange to
    a trace.  Python exceptions are results of their own, so a handler that
    lets an exception escape is visible as such.

    Three things the handler uses are libraries, not code of the module, and
    are taken as components of an environment: the remote service, the
    regular-expression engine, and Python's [repr] of containers. *)

From Stdlib Require Import String List ZArith Lia Bool Ascii DecimalString.
Import ListNotations.
Open Scope string_scope.
Open Scope Z_scope.

Set Warnings "-register-all".

(** ** Python values

    What [response.json()] and [request.get_json()] produce.  A dict keeps
    its keys in insertion order, which [dict.values()] exposes, hence the
    association list.  A float is carried by its [repr], the only thing the
    handler could observe of it. *)

Inductive value : Type :=
| VNone
| VBool (b : bool)
| VInt (z : Z)
| VFloat (repr : string)
| VStr (s : string)
| VList (items : list value)
| VDict (entries : list (string * value)).

(** [d[k]] on the entries of a dict, whose keys are distinct. *)
Fixpoint lookup (k : string) (entries : list (string * value)) : option value :=
  match entries with
  | [] => None
  | (k', v) :: rest => if String.eqb k k' then Some v else lookup k rest
  end.

(** Truth value of an object, as [if] and [and] test it. *)
Definition truthy (v : value) : bool :=
  match v with
  | VNone => false
  | VBool b => b
  | VInt z => negb (z =? 0)
  | VFloat r => negb (String.eqb r "0.0" || String.eqb r "-0.0")
  | VStr s => negb (String.eqb s "")
  | VList items => match items with [] => false | _ => true end
  | VDict entries => match entries with [] => false | _ => true end
  end.

(** [type(v) is list]. *)
Definition is_list (v : value) : bool :=
  match v with VList _ => true | _ => false end.

Definition list_items (v : value) : list value :=
  match v with VList items => items | _ => [] end.

(** ** The HTTP boundary *)

(** A response of [requests]: the status code, the decoded body, what
    [.json()] makes of the body ([None] when it is not JSON), and the target
    of the [Link: <...>; rel="next"] header when the server sent one. *)
Record Response : Type := {
  status_code : Z;
  text : string;
  json : option value;
  next_link : option string
}.

(** Failures of [requests] that come without a response. *)
Inductive RequestError : Type :=
| ConnectionError
| Timeout
| InvalidURL.

Inductive HttpOutcome : Type :=
| Responded (r : Response)
| Failed (e : RequestError).

(** One GET and what came of it. *)
Record Event : Type := {
  ev_url : string;
  ev_outcome : HttpOutcome
}.

Definition Trace : Type := list Event.

(** The collaborators of the module.  The remote service answers a GET
    knowing every exchange made so far, so a service whose answers change
    between calls is covered. *)
Record Env : Type := {
  remote : Trace -> string -> HttpOutcome;
  re_compiles : string -> bool;
  re_found : string -> string -> bool;
  repr_container : value -> string
}.

(** ** Exceptions and the handler monad *)

Inductive Exn : Type :=
| AttributeError
| TypeError
| KeyError (key : string)
| JSONDecodeError
| ReError
| HTTPError (response : Response)
| RequestException (e : RequestError).

Inductive Result (A : Type) : Type :=
| Ok (a : A)
| Raise (e : Exn).

Arguments Ok {A} a.
Arguments Raise {A} e.

(** A computation reads and extends the trace of GETs. *)
Definition M (A : Type) : Type := Trace -> Result A * Trace.

Definition ret {A} (a : A) : M A := fun tr => (Ok a, tr).

Definition raise {A} (e : Exn) : M A := fun tr => (Raise e, tr).

Definition bind {A B} (m : M A) (k : A -> M B) : M B :=
  fun tr =>
    match m tr with
    | (Ok a, tr') => k a tr'
    | (Raise e, tr') => (Raise e, tr')
    end.

Notation "x <- m ;; k" := (bind m (fun x => k))
  (at level 61, m at next level, right associativity).

(** [try: body except requests.exceptions.HTTPError as e: handler(e.response)] *)
Definition try_except_HTTPError {A} (body : M A) (handler : Response -> M A) : M A :=
  fun tr =>
    match body tr with
    | (Raise (HTTPError r), tr') => handler r tr'
    | other => other
    end.

(** [for x in xs: body], the loop variables threaded as [s]. *)
Fixpoint for_in {A S} (xs : list A) (body : A -> S -> M S) (s : S) : M S :=
  match xs with
  | [] => ret s
  | x :: rest => s' <- body x s ;; for_in rest body s'
  end.

(** ** Library operations the handler calls *)

(** [str(v)], which is what [str.format] substitutes for a field. *)
Definition py_str (E : Env) (v : value) : string :=
  match v with
  | VNone => "None"
  | VBool true => "True"
  | VBool false => "False"
  | VInt z => NilZero.string_of_int (Z.to_int z)
  | VFloat r => r
  | VStr s => s
  | VList _ | VDict _ => repr_container E v
  end.

(** [requests.get(url)] and [session.get(url)]: one exchange, recorded.
    [requests] takes a URL that is not a string through [str], so the
    callers pass [py_str] of what they hold; a URL it refuses is an outcome
    without a response like any other. *)
Definition http_get (E : Env) (url : string) : M Response :=
  fun tr =>
    let outcome := remote E tr url in
    let tr' := (tr ++ [{| ev_url := url; ev_outcome := outcome |}])%list in
    match outcome with
    | Responded r => (Ok r, tr')
    | Failed e => (Raise (RequestException e), tr')
    end.

(** [response.raise_for_status()] *)
Definition raise_for_status (response : Response) : M unit :=
  if (400 <=? status_code response) && (status_code response <? 600)
  then raise (HTTPError response)
  else ret tt.

(** [response.json()]: the parsed body, or the decoding error of a body
    that is not JSON.  The resource limits of the parser (its recursion
    depth, the length of an integer) are outside the model. *)
Definition response_json (response : Response) : M value :=
  match json response with
  | Some v => ret v
  | None => raise JSONDecodeError
  end.

(** [d.get(k)]: only a dict has the method. *)
Definition dict_get (d : value) (k : string) : M value :=
  match d with
  | VDict entries =>
      ret (match lookup k entries with Some v => v | None => VNone end)
  | _ => raise AttributeError
  end.

(** [v[k]] with a string key. *)
Definition subscript (v : value) (k : string) : M value :=
  match v with
  | VDict entries =>
      match lookup k entries with
      | Some x => ret x
      | None => raise (KeyError k)
      end
  | _ => raise TypeError
  end.

(** [v.values()] *)
Definition dict_values (v : value) : M (list value) :=
  match v with
  | VDict entries => ret (map snd entries)
  | _ => raise AttributeError
  end.

(** [re.search(pattern, s)] as a truth value: the pattern must be a string
    and must compile.  The resource limits of the engine (an oversized
    repeat count, its recursion depth) are outside the model. *)
Definition re_search (E : Env) (pattern : value) (s : string) : M bool :=
  match pattern with
  | VStr p => if re_compiles E p then ret (re_found E p s) else raise ReError
  | _ => raise TypeError
  end.

(** ** The module *)

(** [ping] *)
Definition ping : string := "pong".

Definition gists_url (E : Env) (username : value) : string :=
  "https://api.github.com/users/" ++ py_str E username ++ "/gists".

(** [gists_for_user] *)
Definition gists_for_user (E : Env) (username : value) : M value :=
  try_except_HTTPError
    (response <- http_get E (gists_url E username) ;;
     _ <- raise_for_status response ;;
     response_json response)
    (fun e_response => response_json e_response).

(** The URL appended to [matches]. *)
Definition gist_url (E : Env) (username gist_id : value) : string :=
  "https://gist.github.com/" ++ py_str E username ++ "/" ++ py_str E gist_id.

(** Body of [for file in gist['files'].values()]. *)
Definition search_file (E : Env) (username pattern gist : value)
    (file : value) (matches : list value) : M (list value) :=
  raw_url <- subscript file "raw_url" ;;
  response <- http_get E (py_str E raw_url) ;;
  let gist_content := text response in
  found <- re_search E pattern gist_content ;;
  if found then
    gist_id <- subscript gist "id" ;;
    ret (matches ++ [VStr (gist_url E username gist_id)])%list
  else ret matches.

(** Body of [for gist in gists]. *)
Definition search_gist (E : Env) (username pattern : value)
    (gist : value) (matches : list value) : M (list value) :=
  files <- subscript gist "files" ;;
  file_values <- dict_values files ;;
  for_in file_values (search_file E username pattern gist) matches.

Definition success_object (username pattern : value) (matches : list value) : value :=
  VDict [("username", username); ("pattern", pattern);
         ("matches", VList matches); ("status", VStr "success")].

Definition failure_object : value :=
  VDict [("error", VStr "not found"); ("message", VStr "invalid user");
         ("status", VStr "fail")].

(** [search], with [post_data] the value of [request.get_json()] and the
    result the object handed to [jsonify]. *)
Definition search (E : Env) (post_data : value) : M value :=
  username <- dict_get post_data "username" ;;
  pattern <- dict_get post_data "pattern" ;;
  gists <- gists_for_user E username ;;
  if truthy gists && is_list gists then
    matches <- for_in (list_items gists) (search_gist E username pattern) [] ;;
    ret (success_object username pattern matches)
  else
    ret failure_object.

(** ** The data model of the specification

    A gist as the handler needs it: an id and, per file, a raw URL.  The
    views read them off the listing without caring for the other keys
    GitHub sends. *)

Record FileRef : Type := {
  file_name : string;
  raw_url : value
}.

Record GistRef : Type := {
  gist_id : value;
  gist_files : list FileRef
}.

Fixpoint view_all {A B} (view : A -> option B) (xs : list A) : option (list B) :=
  match xs with
  | [] => Some []
  | x :: rest =>
      match view x, view_all view rest with
      | Some y, Some ys => Some (y :: ys)
      | _, _ => None
      end
  end.

Definition view_file (entry : string * value) : option FileRef :=
  match snd entry with
  | VDict d =>
      match lookup "raw_url" d with
      | Some u => Some {| file_name := fst entry; raw_url := u |}
      | None => None
      end
  | _ => None
  end.

Definition view_gist (gist : value) : option GistRef :=
  match gist with
  | VDict d =>
      match lookup "files" d, lookup "id" d with
      | Some (VDict fs), Some i =>
          match view_all view_file fs with
          | Some files => Some {| gist_id := i; gist_files := files |}
          | None => None
          end
      | _, _ => None
      end
  | _ => None
  end.

(** An upstream dataset: what each URL answers, whenever it is asked. *)
Definition Dataset : Type := string -> HttpOutcome.

Definition serves (E : Env) (data : Dataset) : Prop :=
  forall (tr : Trace) (url : string), remote E tr url = data url.

Definition username_of (body : list (string * value)) : value :=
  match lookup "username" body with Some v => v | None => VNone end.

Definition pattern_of (body : list (string * value)) : value :=
  match lookup "pattern" body with Some v => v | None => VNone end.

(** The files of the gists, flattened in gist order and then file order. *)
Definition all_files (gists : list GistRef) : list FileRef :=
  flat_map gist_files gists.

Definition fetch_event (E : Env) (data : Dataset) (f : FileRef) : Event :=
  {| ev_url := py_str E (raw_url f); ev_outcome := data (py_str E (raw_url f)) |}.

(** The error of the first file, in traversal order, whose fetch comes back
    without a response. *)
Fixpoint first_failure (E : Env) (data : Dataset) (fs : list FileRef)
    : option RequestError :=
  match fs with
  | [] => None
  | f :: rest =>
      match data (py_str E (raw_url f)) with
      | Responded _ => first_failure E data rest
      | Failed e => Some e
      end
  end.

(** The files up to that one, itself included. *)
Fixpoint attempted (E : Env) (data : Dataset) (fs : list FileRef) : list FileRef :=
  match fs with
  | [] => []
  | f :: rest =>
      f :: match data (py_str E (raw_url f)) with
           | Responded _ => attempted E data rest
           | Failed _ => []
           end
  end.

(** A file matches when the body that came back for it does, whatever the
    status code it came with. *)
Definition file_matches (E : Env) (data : Dataset) (p : string) (f : FileRef) : bool :=
  match data (py_str E (raw_url f)) with
  | Responded r => re_found E p (text r)
  | Failed _ => false
  end.

Definition matching_files (E : Env) (data : Dataset) (p : string) (g : GistRef)
    : list FileRef :=
  filter (file_matches E data p) (gist_files g).

(** The URLs of the owning gists of the matching files, in gist listing
    order and then file order: one entry per matching file. *)
Definition traversal_matches (E : Env) (data : Dataset) (username : value)
    (p : string) (gists : list GistRef) : list string :=
  flat_map
    (fun g => map (fun _ => gist_url E username (gist_id g)) (matching_files E data p g))
    gists.

Definition owned_by (E : Env) (username : value) (u : string) (g : GistRef) : bool :=
  String.eqb (gist_url E username (gist_id g)) u.

(** A search that can run to its end: the dataset is fixed, the pattern is a
    string that compiles, and the listing is a non-empty array of gists with
    the keys the handler reads. *)
Record well_formed_search (E : Env) (data : Dataset) (body : list (string * value))
    (p : string) (gists : list GistRef) : Prop := {
  wf_serves : serves E data;
  wf_pattern : lookup "pattern" body = Some (VStr p);
  wf_compiles : re_compiles E p = true;
  wf_listing : exists r listing,
      data (gists_url E (username_of body)) = Responded r /\
      json r = Some (VList listing) /\
      listing <> [] /\
      view_all view_gist listing = Some gists
}.

(** The one exchange [gists_for_user] makes. *)
Definition listing_event (E : Env) (username : value) (tr : Trace) : Event :=
  {| ev_url := gists_url E username;
     ev_outcome := remote E tr (gists_url E username) |}.

(** A computation whose result does not depend on the exchanges made before
    it starts. *)
Definition oblivious {A} (m : M A) : Prop :=
  forall tr, m tr = (fst (m []), (tr ++ snd (m []))%list).

(** A computation only ever extends the trace. *)
Definition appends {A} (m : M A) : Prop :=
  forall tr, exists rest, snd (m tr) = (tr ++ rest)%list.

(** The exceptions a listing of the wrong shape raises. *)
Definition shape_error (e : Exn) : bool :=
  match e with
  | AttributeError | TypeError | KeyError _ => true
  | _ => false
  end.

Definition responded (ev : Event) : bool :=
  match ev_outcome ev with Responded _ => true | Failed _ => false end.

(** How the loops end when the matcher raises [e] on every body: nothing
    was fetched, or the first fetch failed, or the first fetch was answered
    and the matcher raised. *)
Definition first_fetch_outcome (e : Exn) (acc : list value) (tr : Trace)
    (out : Result (list value) * Trace) : Prop :=
  (snd out = tr /\
   (fst out = Ok acc \/ exists e', fst out = Raise e' /\ shape_error e' = true)) \/
  (exists ev err, snd out = (tr ++ [ev])%list /\ ev_outcome ev = Failed err /\
                  fst out = Raise (RequestException err)) \/
  (exists ev, snd out = (tr ++ [ev])%list /\ responded ev = true /\ fst out = Raise e).

(** [ListGists] in the words of the specification: request a page, follow
    its next link until there is none, concatenate the pages in the order
    the server returned them. *)
Fixpoint spec_ListGists (fuel : nat) (data : Dataset) (url : string)
    : option (list value) :=
  match fuel with
  | O => None
  | S fuel' =>
      match data url with
      | Responded r =>
          match json r with
          | Some (VList page) =>
              match next_link r with
              | None => Some page
              | Some next =>
                  match spec_ListGists fuel' data next with
                  | Some more => Some (page ++ more)%list
                  | None => None
                  end
              end
          | _ => None
          end
      | Failed _ => None
      end
  end.

(** Reading a field off the object a search returned. *)
Definition field (k : string) (res : Result value) : option value :=
  match res with
  | Ok (VDict entries) => lookup k entries
  | _ => None
  end.

Definition is_2xx (r : Response) : bool :=
  (200 <=? status_code r) && (status_code r <? 300).

(** A JSON body other than a non-empty array: what the handler takes for
    the absence of gists. *)
Definition no_gists (v : value) : bool := negb (truthy v && is_list v).

(** ** The listing as the loops walk it

    What the two loops meet on a listing of any shape: the values of the
    [files] dict of a gist (none when the gist has no such dict), the raw
    URL a file entry gives (none when it gives none), and the URL the gist
    would be listed under (none when it has no id). *)

Definition is_dict (v : value) : bool :=
  match v with VDict _ => true | _ => false end.

Definition files_of (gist : value) : list value :=
  match gist with
  | VDict d =>
      match lookup "files" d with
      | Some (VDict fs) => map snd fs
      | _ => []
      end
  | _ => []
  end.

Definition raw_url_of (E : Env) (file : value) : list string :=
  match file with
  | VDict fd =>
      match lookup "raw_url" fd with
      | Some u => [py_str E u]
      | None => []
      end
  | _ => []
  end.

Definition raw_urls (E : Env) (listing : list value) : list string :=
  flat_map (fun gist => flat_map (raw_url_of E) (files_of gist)) listing.

Definition gist_url_of (E : Env) (username gist : value) : list value :=
  match gist with
  | VDict d =>
      match lookup "id" d with
      | Some gid => [VStr (gist_url E username gid)]
      | None => []
      end
  | _ => []
  end.

Definition gist_urls (E : Env) (username : value) (listing : list value) : list value :=
  flat_map (gist_url_of E username) listing.


(** A pattern the matcher accepts. *)
Definition usable_pattern (E : Env) (pattern : value) : bool :=
  match pattern with
  | VStr p => re_compiles E p
  | _ => false
  end.

(** How a stretch of the loops that should fetch [urls] ends: the GETs it
    made are the first of [urls], in order; when it ends without an
    exception it made them all, each was answered, and it added to the
    matches at most one entry per GET, each taken from [owners]. *)
Definition orderly (urls : list string) (owners : list value) (acc : list value)
    (tr : Trace) (out : Result (list value) * Trace) : Prop :=
  exists rest later,
    snd out = (tr ++ rest)%list /\
    urls = (map ev_url rest ++ later)%list /\
    forall ms, fst out = Ok ms ->
      later = [] /\ forallb responded rest = true /\
      exists new, ms = (acc ++ new)%list /\ incl new owners /\
                  (length new <= length rest)%nat.

(** The exception a gist raises before any of its files is looked at: it
    is no dict, it has no [files] key, or its [files] is no dict. *)
Definition gist_shape_error (gist : value) : option Exn :=
  match gist with
  | VDict d =>
      match lookup "files" d with
      | Some (VDict _) => None
      | Some _ => Some AttributeError
      | None => Some (KeyError "files")
      end
  | _ => Some TypeError
  end.

(** A search whose listing starts with the gists [pre], well formed and
    with every file answered, and goes on with [rest]. *)
Record well_formed_prefix (E : Env) (data : Dataset) (body : list (string * value))
    (p : string) (pre rest : list value) (gists : list GistRef) : Prop := {
  wp_serves : serves E data;
  wp_pattern : lookup "pattern" body = Some (VStr p);
  wp_compiles : re_compiles E p = true;
  wp_listing : exists r,
      data (gists_url E (username_of body)) = Responded r /\
      json r = Some (VList (pre ++ rest)%list);
  wp_view : view_all view_gist pre = Some gists;
  wp_answered : first_failure E data (all_files gists) = None
}.


(** ** Example upstreams

    A literal matcher stands in for [re] on the fragment the examples use: a
    pattern whose parentheses balance is accepted and searched as a
    substring, which is how [re.search] treats a pattern of letters; the
    lone ["("] is refused, as [re] refuses an unterminated group. *)

Fixpoint balanced (depth : nat) (p : string) : bool :=
  match p with
  | EmptyString => Nat.eqb depth 0
  | String c rest =>
      if Ascii.eqb c "(" then balanced (S depth) rest
      else if Ascii.eqb c ")" then
        match depth with
        | O => false
        | S d => balanced d rest
        end
      else balanced depth rest
  end.

Definition contains (needle hay : string) : bool :=
  match index 0 needle hay with
  | Some _ => true
  | None => false
  end.

(** The environment of a dataset that never changes.  The examples format
    no container. *)
Definition fixed_env (data : Dataset) : Env := {|
  remote := fun _ url => data url;
  re_compiles := balanced 0;
  re_found := contains;
  repr_container := fun _ => "..."
|}.

Fixpoint serve (table : list (string * HttpOutcome)) (url : string) : HttpOutcome :=
  match table with
  | [] => Failed ConnectionError
  | (u, o) :: rest => if String.eqb url u then o else serve rest url
  end.

Definition dquote : string := String (ascii_of_nat 34) EmptyString.

Definition quoted (s : string) : string := dquote ++ s ++ dquote.

(** The JSON text of a value whose strings need no escape. *)
Fixpoint json_text (v : value) : string :=
  match v with
  | VNone => "null"
  | VBool true => "true"
  | VBool false => "false"
  | VInt z => NilZero.string_of_int (Z.to_int z)
  | VFloat r => r
  | VStr s => quoted s
  | VList items =>
      "[" ++ (fix elems (l : list value) : string :=
                match l with
                | [] => ""
                | x :: rest =>
                    json_text x ++ match rest with [] => "" | _ => ", " ++ elems rest end
                end) items ++ "]"
  | VDict entries =>
      "{" ++ (fix members (l : list (string * value)) : string :=
                match l with
                | [] => ""
                | (k, x) :: rest =>
                    quoted k ++ ": " ++ json_text x
                      ++ match rest with [] => "" | _ => ", " ++ members rest end
                end) entries ++ "}"
  end.

Definition json_response (code : Z) (v : value) (next : option string) : HttpOutcome :=
  Responded {| status_code := code; text := json_text v; json := Some v;
               next_link := next |}.

Definition text_response (code : Z) (body : string) : HttpOutcome :=
  Responded {| status_code := code; text := body; json := None; next_link := None |}.

Definition raw_of (user gist name : string) : string :=
  "https://gist.githubusercontent.com/" ++ user ++ "/" ++ gist ++ "/raw/" ++ name.

Definition file_entry (user gist name : string) : string * value :=
  (name, VDict [("filename", VStr name); ("raw_url", VStr (raw_of user gist name))]).

Definition gist_entry (user gist : string) (names : list string) : value :=
  VDict [("id", VStr gist); ("files", VDict (map (file_entry user gist) names))].

Definition listing_of (user : string) : string :=
  "https://api.github.com/users/" ++ user ++ "/gists".

Definition request_body (user pattern : string) : value :=
  VDict [("username", VStr user); ("pattern", VStr pattern)].

(** alice: gist g1 with a.py, b.py and c.py, gist g2 with d.py.  All but
    b.py contain TODO; a.py and c.py alone contain "TODO: fix". *)
Definition alice_gists : value :=
  VList [gist_entry "alice" "g1" ["a.py"; "b.py"; "c.py"];
         gist_entry "alice" "g2" ["d.py"]].

Definition alice_data : Dataset :=
  serve [(listing_of "alice", json_response 200 alice_gists None);
         (raw_of "alice" "g1" "a.py", text_response 200 "# TODO: fix parser");
         (raw_of "alice" "g1" "b.py", text_response 200 "done");
         (raw_of "alice" "g1" "c.py", text_response 200 "# TODO: fix docs");
         (raw_of "alice" "g2" "d.py", text_response 200 "# TODO later")].

(** The same account when the fetch of c.py times out. *)
Definition alice_timeout_data : Dataset :=
  serve [(raw_of "alice" "g1" "c.py", Failed Timeout);
         (listing_of "alice", json_response 200 alice_gists None);
         (raw_of "alice" "g1" "a.py", text_response 200 "# TODO: fix parser");
         (raw_of "alice" "g1" "b.py", text_response 200 "done");
         (raw_of "alice" "g2" "d.py", text_response 200 "# TODO later")].


(** The scenario of the specification: one gist, a.py with TODO, b.py
    without. *)
Definition scenario_data : Dataset :=
  serve [(listing_of "alice",
          json_response 200 (VList [gist_entry "alice" "g1" ["a.py"; "b.py"]]) None);
         (raw_of "alice" "g1" "a.py", text_response 200 "TODO");
         (raw_of "alice" "g1" "b.py", text_response 200 "done")].

(** bob exists and has no gist. *)
Definition bob_data : Dataset :=
  serve [(listing_of "bob", json_response 200 (VList []) None)].

Definition not_found_body : value :=
  VDict [("message", VStr "Not Found");
         ("documentation_url", VStr "https://docs.github.com/rest")].

Definition server_error_body : value :=
  VDict [("message", VStr "Server Error")].

(** nobody is unknown to GitHub; in the second dataset GitHub is down. *)
Definition nobody_data : Dataset :=
  serve [(listing_of "nobody", json_response 404 not_found_body None)].

Definition outage_data : Dataset :=
  serve [(listing_of "nobody", json_response 500 server_error_body None)].


(** carol's listing comes in two pages. *)
Definition carol_page2 : string := "https://api.github.com/user/3/gists?page=2".

Definition carol_data : Dataset :=
  serve [(listing_of "carol",
          json_response 200 (VList [gist_entry "carol" "g1" ["a.py"]]) (Some carol_page2));
         (carol_page2,
          json_response 200 (VList [gist_entry "carol" "g2" ["b.py"]]) None);
         (raw_of "carol" "g1" "a.py", text_response 200 "done");
         (raw_of "carol" "g2" "b.py", text_response 200 "TODO")].

(** A request body without a username, and one without a pattern. *)
Definition no_username_body : value := VDict [("pattern", VStr "TODO")].

Definition no_pattern_body : value := VDict [("username", VStr "alice")].

(** The gists of a listing as the views read them. *)
Definition refs_of (listing : value) : list GistRef :=
  match view_all view_gist (list_items listing) with
  | Some gists => gists
  | None => []
  end.

Definition alice_refs : list GistRef := refs_of alice_gists.

Definition g1_url : string := "https://gist.github.com/alice/g1".

Definition g2_url : string := "https://gist.github.com/alice/g2".

(** dave: gist g1 with a.py, then a gist without an id with b.py; both
    files contain TODO, a.py alone contains FIXME. *)
Definition dave_listing : list value :=
  [gist_entry "dave" "g1" ["a.py"];
   VDict [("files", VDict [file_entry "dave" "g2" "b.py"])]].

Definition dave_data : Dataset :=
  serve [(listing_of "dave", json_response 200 (VList dave_listing) None);
         (raw_of "dave" "g1" "a.py", text_response 200 "TODO FIXME");
         (raw_of "dave" "g2" "b.py", text_response 200 "TODO")].

(** erin: gist g1 with a.py containing TODO, then an entry that is no gist
    at all. *)
Definition erin_data : Dataset :=
  serve [(listing_of "erin",
          json_response 200 (VList [gist_entry "erin" "g1" ["a.py"]; VStr "g2"]) None);
         (raw_of "erin" "g1" "a.py", text_response 200 "TODO")].



(** A gateway answers the listing of grace with a page that is not JSON. *)
Definition gateway_data : Dataset :=
  serve [(listing_of "grace", text_response 502 "Bad Gateway")].

(** * Properties *)

(** ** The handler monad *)

Lemma bind_ok {A B} (m : M A) (k : A -> M B) tr a tr' :
  m tr = (Ok a, tr') -> bind m k tr = k a tr'.
Proof. intros H. unfold bind. now rewrite H. Qed.

Lemma bind_raise {A B} (m : M A) (k : A -> M B) tr e tr' :
  m tr = (Raise e, tr') -> bind m k tr = (Raise e, tr').
Proof. intros H. unfold bind. now rewrite H. Qed.

Lemma http_get_served E data url tr :
  serves E data ->
  http_get E url tr =
    (match data url with
     | Responded r => Ok r
     | Failed e => Raise (RequestException e)
     end,
     (tr ++ [{| ev_url := url; ev_outcome := data url |}])%list).
Proof.
  intros Hs. unfold http_get. cbv zeta. rewrite !Hs.
  destruct (data url); reflexivity.
Qed.

(** ** Flattened traversals *)

Lemma first_failure_app E data fs1 fs2 :
  first_failure E data (fs1 ++ fs2) =
    match first_failure E data fs1 with
    | Some e => Some e
    | None => first_failure E data fs2
    end.
Proof.
  induction fs1 as [|f fs1 IH]; simpl; [reflexivity|].
  now destruct (data (py_str E (raw_url f))).
Qed.

Lemma attempted_app E data fs1 fs2 :
  attempted E data (fs1 ++ fs2) =
    (attempted E data fs1 ++
      match first_failure E data fs1 with
      | Some _ => []
      | None => attempted E data fs2
      end)%list.
Proof.
  induction fs1 as [|f fs1 IH]; simpl; [reflexivity|].
  destruct (data (py_str E (raw_url f))); simpl; [now rewrite IH | reflexivity].
Qed.

Lemma attempted_all E data fs :
  first_failure E data fs = None -> attempted E data fs = fs.
Proof.
  induction fs as [|f fs IH]; simpl; [reflexivity|].
  destruct (data (py_str E (raw_url f))); [|discriminate].
  intros H. now rewrite IH.
Qed.

(** ** Views *)

Lemma view_all_cons {A B} (view : A -> option B) x xs ys :
  view_all view (x :: xs) = Some ys ->
  exists y ys', view x = Some y /\ view_all view xs = Some ys' /\ ys = y :: ys'.
Proof.
  simpl. destruct (view x) as [y|]; [|discriminate].
  destruct (view_all view xs) as [ys'|]; [|discriminate].
  intros [= <-]. now exists y, ys'.
Qed.

Lemma view_file_some k v f :
  view_file (k, v) = Some f ->
  exists entries u,
    v = VDict entries /\ lookup "raw_url" entries = Some u /\
    f = {| file_name := k; raw_url := u |}.
Proof.
  unfold view_file; simpl.
  destruct v as [| | | | | |entries]; try discriminate.
  destruct (lookup "raw_url" entries) as [u|] eqn:Hurl; [|discriminate].
  intros [= <-]. now exists entries, u.
Qed.

Lemma view_gist_some gist g :
  view_gist gist = Some g ->
  exists d fs,
    gist = VDict d /\ lookup "files" d = Some (VDict fs) /\
    lookup "id" d = Some (gist_id g) /\
    view_all view_file fs = Some (gist_files g).
Proof.
  unfold view_gist.
  destruct gist as [| | | | | |d]; try discriminate.
  destruct (lookup "files" d) as [[| | | | | |fs]|] eqn:Hfiles; try discriminate.
  destruct (lookup "id" d) as [gid|] eqn:Hid; [|discriminate].
  destruct (view_all view_file fs) as [files|] eqn:Hfs; [|discriminate].
  intros [= <-]. now exists d, fs.
Qed.

(** ** The two loops on a well-formed listing *)

Section Loops.

Variable E : Env.
Variable data : Dataset.
Variables (username : value) (p : string).
Hypothesis Hserves : serves E data.
Hypothesis Hcompiles : re_compiles E p = true.

Lemma search_file_run gist_entries gid k entries u acc tr :
  lookup "id" gist_entries = Some gid ->
  lookup "raw_url" entries = Some u ->
  let f := {| file_name := k; raw_url := u |} in
  search_file E username (VStr p) (VDict gist_entries) (VDict entries) acc tr =
    (match data (py_str E u) with
     | Responded r =>
         Ok (if re_found E p (text r)
             then (acc ++ [VStr (gist_url E username gid)])%list
             else acc)
     | Failed e => Raise (RequestException e)
     end,
     (tr ++ [fetch_event E data f])%list).
Proof.
  intros Hid Hurl f. unfold search_file, subscript. rewrite Hurl.
  unfold bind at 1. unfold ret at 1.
  unfold bind at 1. rewrite (http_get_served _ _ _ _ Hserves).
  unfold fetch_event; simpl.
  destruct (data (py_str E u)) as [r|e]; [|reflexivity].
  unfold re_search. rewrite Hcompiles.
  unfold bind at 1. unfold ret at 1.
  destruct (re_found E p (text r)); [|reflexivity].
  rewrite Hid. reflexivity.
Qed.

Lemma files_loop_run gist_entries gid :
  lookup "id" gist_entries = Some gid ->
  forall fs files acc tr,
    view_all view_file fs = Some files ->
    for_in (map snd fs) (search_file E username (VStr p) (VDict gist_entries)) acc tr =
      (match first_failure E data files with
       | None =>
           Ok (acc ++ map (fun _ => VStr (gist_url E username gid))
                          (filter (file_matches E data p) files))%list
       | Some e => Raise (RequestException e)
       end,
       (tr ++ map (fetch_event E data) (attempted E data files))%list).
Proof.
  intros Hid. induction fs as [|[k v] fs IH]; intros files acc tr Hview.
  - injection Hview as <-. simpl. unfold ret. now rewrite !app_nil_r.
  - apply view_all_cons in Hview as (f & files' & Hf & Hrest & ->).
    apply view_file_some in Hf as (entries & u & -> & Hurl & ->).
    cbn [map snd for_in]. unfold bind at 1.
    rewrite (search_file_run _ _ k _ _ acc tr Hid Hurl).
    cbn [first_failure attempted raw_url filter]. unfold file_matches at 1.
    cbn [raw_url].
    destruct (data (py_str E u)) as [r|e] eqn:Hdata.
    + rewrite (IH files' _ _ Hrest).
      cbn [map]. rewrite <- !app_assoc. cbn [app].
      destruct (first_failure E data files'); [reflexivity|].
      destruct (re_found E p (text r)); cbn [map]; rewrite <- ?app_assoc; reflexivity.
    + reflexivity.
Qed.

Lemma gists_loop_run listing :
  forall gists acc tr,
    view_all view_gist listing = Some gists ->
    for_in listing (search_gist E username (VStr p)) acc tr =
      (match first_failure E data (all_files gists) with
       | None => Ok (acc ++ map VStr (traversal_matches E data username p gists))%list
       | Some e => Raise (RequestException e)
       end,
       (tr ++ map (fetch_event E data) (attempted E data (all_files gists)))%list).
Proof.
  induction listing as [|gist listing IH]; intros gists acc tr Hview.
  - injection Hview as <-. simpl. unfold ret. now rewrite !app_nil_r.
  - apply view_all_cons in Hview as (g & gists' & Hg & Hrest & ->).
    apply view_gist_some in Hg as (d & fs & -> & Hfiles & Hid & Hfs).
    destruct g as [gid files]; cbn [gist_id gist_files] in Hid, Hfs.
    cbn [for_in]. unfold bind at 1. unfold search_gist, subscript.
    rewrite Hfiles. unfold bind at 1, ret at 1. unfold dict_values.
    unfold bind at 1, ret at 1.
    rewrite (files_loop_run _ _ Hid fs _ acc tr Hfs).
    unfold all_files. cbn [flat_map gist_files].
    rewrite first_failure_app, attempted_app.
    destruct (first_failure E data files) as [e|].
    + now rewrite app_nil_r.
    + rewrite (IH gists' _ _ Hrest). fold (all_files gists').
      unfold traversal_matches at 2. cbn [flat_map gist_id gist_files].
      fold (traversal_matches E data username p gists').
      unfold matching_files at 1. cbn [gist_files gist_id].
      rewrite !map_app, map_map, <- !app_assoc.
      reflexivity.
Qed.

End Loops.

(** ** What the handler does with the listing *)

Lemma gists_for_user_run E username tr :
  gists_for_user E username tr =
    (match remote E tr (gists_url E username) with
     | Responded r =>
         match json r with
         | Some v => Ok v
         | None => Raise JSONDecodeError
         end
     | Failed e => Raise (RequestException e)
     end,
     (tr ++ [listing_event E username tr])%list).
Proof.
  unfold gists_for_user, try_except_HTTPError, listing_event, bind at 1, http_get.
  cbv zeta.
  destruct (remote E tr (gists_url E username)) as [r|e]; [|reflexivity].
  unfold bind, raise_for_status, response_json.
  destruct ((400 <=? status_code r) && (status_code r <? 600));
    unfold raise, ret; destruct (json r); reflexivity.
Qed.

Lemma search_no_gists E body tr r v :
  remote E tr (gists_url E (username_of body)) = Responded r ->
  json r = Some v ->
  no_gists v = true ->
  search E (VDict body) tr =
    (Ok failure_object, (tr ++ [listing_event E (username_of body) tr])%list).
Proof.
  intros Hr Hj Hv. unfold search, dict_get.
  unfold bind at 1, ret at 1. unfold bind at 1, ret at 1.
  fold (username_of body). unfold bind at 1.
  rewrite gists_for_user_run, Hr, Hj.
  unfold no_gists in Hv. apply negb_true_iff in Hv. now rewrite Hv.
Qed.

Lemma search_listing E body tr r listing :
  remote E tr (gists_url E (username_of body)) = Responded r ->
  json r = Some (VList listing) ->
  listing <> [] ->
  search E (VDict body) tr =
    match for_in listing (search_gist E (username_of body) (pattern_of body)) []
            (tr ++ [listing_event E (username_of body) tr])%list with
    | (Ok matches, tr') =>
        (Ok (success_object (username_of body) (pattern_of body) matches), tr')
    | (Raise e, tr') => (Raise e, tr')
    end.
Proof.
  intros Hr Hj Hne. unfold search, dict_get.
  unfold bind at 1, ret at 1. unfold bind at 1, ret at 1.
  fold (username_of body). fold (pattern_of body). unfold bind at 1.
  rewrite gists_for_user_run, Hr, Hj.
  destruct listing as [|g listing]; [contradiction|].
  cbn [truthy is_list andb list_items]. reflexivity.
Qed.

Lemma search_run E data body p gists tr :
  well_formed_search E data body p gists ->
  search E (VDict body) tr =
    (match first_failure E data (all_files gists) with
     | None =>
         Ok (success_object (username_of body) (VStr p)
               (map VStr (traversal_matches E data (username_of body) p gists)))
     | Some e => Raise (RequestException e)
     end,
     (tr ++ listing_event E (username_of body) tr
         :: map (fetch_event E data) (attempted E data (all_files gists)))%list).
Proof.
  intros [Hs Hp Hc (r & listing & Hr & Hj & Hne & Hview)].
  rewrite (search_listing E body tr r listing); [|now rewrite Hs|assumption..].
  unfold pattern_of. rewrite Hp.
  rewrite (gists_loop_run E data _ p Hs Hc listing gists _ _ Hview).
  rewrite <- app_assoc. cbn [app].
  destruct (first_failure E data (all_files gists)); reflexivity.
Qed.

Lemma search_transport_failure E body tr e :
  remote E tr (gists_url E (username_of body)) = Failed e ->
  search E (VDict body) tr =
    (Raise (RequestException e), (tr ++ [listing_event E (username_of body) tr])%list).
Proof.
  intros Hr. unfold search, dict_get.
  unfold bind at 1, ret at 1. unfold bind at 1, ret at 1.
  fold (username_of body). unfold bind at 1.
  now rewrite gists_for_user_run, Hr.
Qed.

(** ** Counting the entries of [matches] *)

Lemma count_occ_constant (c u : string) {A} (l : list A) :
  count_occ string_dec (map (fun _ => c) l) u =
    if String.eqb c u then length l else 0%nat.
Proof.
  induction l as [|x l IH]; simpl.
  - now destruct (String.eqb c u).
  - destruct (string_dec c u) as [->|Hne].
    + rewrite String.eqb_refl in *. now rewrite IH.
    + apply String.eqb_neq in Hne. now rewrite Hne in *.
Qed.

Lemma traversal_matches_count E data username p gists u :
  count_occ string_dec (traversal_matches E data username p gists) u =
    length (flat_map (matching_files E data p)
                     (filter (owned_by E username u) gists)).
Proof.
  induction gists as [|g gists IH]; [reflexivity|].
  unfold traversal_matches. cbn [flat_map filter].
  fold (traversal_matches E data username p gists).
  rewrite count_occ_app, count_occ_constant, IH.
  unfold owned_by at 2.
  destruct (String.eqb (gist_url E username (gist_id g)) u); [|reflexivity].
  cbn [flat_map]. now rewrite length_app.
Qed.

Lemma traversal_matches_In E data username p gists u :
  In u (traversal_matches E data username p gists) <->
  exists g f, In g gists /\ In f (matching_files E data p g) /\
              gist_url E username (gist_id g) = u.
Proof.
  unfold traversal_matches. rewrite in_flat_map. split.
  - intros (g & Hg & Hin). apply in_map_iff in Hin as (f & Hu & Hf).
    now exists g, f.
  - intros (g & f & Hg & Hf & Hu). exists g. split; [assumption|].
    apply in_map_iff. now exists f.
Qed.

(** ** The claims on a well-formed listing *)

(** C1 (as amended).  On a fixed upstream dataset whose fetches are all
    answered, [matches] holds the canonical URL of a gist once for every
    matching file of that gist: the URLs listed are exactly those of the
    gists that own a matching file, and a URL occurs as many times as its
    gists have matching files.  Nothing is deduplicated. *)
Theorem matches_one_entry_per_matching_file E data body p gists tr :
  well_formed_search E data body p gists ->
  first_failure E data (all_files gists) = None ->
  let urls := traversal_matches E data (username_of body) p gists in
  field "matches" (fst (search E (VDict body) tr)) = Some (VList (map VStr urls)) /\
  (forall u, In u urls <->
     exists g f, In g gists /\ In f (matching_files E data p g) /\
                 gist_url E (username_of body) (gist_id g) = u) /\
  (forall u, count_occ string_dec urls u =
     length (flat_map (matching_files E data p)
                      (filter (owned_by E (username_of body) u) gists))).
Proof.
  intros Hwf Hnone urls. rewrite (search_run E data body p gists tr Hwf), Hnone.
  split; [reflexivity|]. split; intros u.
  - apply traversal_matches_In.
  - apply traversal_matches_count.
Qed.

(** C7.  On a fixed upstream dataset, the list returned under the key
    [matches] holds the owning gists of the matching files in gist listing
    order and, within a gist, in file order, and the answer has status
    success; the files are fetched one after the other in that same order,
    so the order of the list owes nothing to when a fetch completes. *)
Theorem matches_follow_traversal_order E data body p gists tr :
  well_formed_search E data body p gists ->
  first_failure E data (all_files gists) = None ->
  field "matches" (fst (search E (VDict body) tr)) =
    Some (VList (map VStr (traversal_matches E data (username_of body) p gists))) /\
  field "status" (fst (search E (VDict body) tr)) = Some (VStr "success") /\
  snd (search E (VDict body) tr) =
    (tr ++ listing_event E (username_of body) tr
        :: map (fetch_event E data) (all_files gists))%list.
Proof.
  intros Hwf Hnone. rewrite (search_run E data body p gists tr Hwf), Hnone.
  rewrite (attempted_all _ _ _ Hnone). repeat split.
Qed.


(** ** The claims on the listing request *)

(** C2 (as amended).  When the listing succeeds and is empty, the handler
    answers with the failure object (status "fail", no [matches] key): an
    account without gists is reported like an unknown account. *)
Theorem empty_listing_is_reported_as_failure E body tr r :
  remote E tr (gists_url E (username_of body)) = Responded r ->
  is_2xx r = true ->
  json r = Some (VList []) ->
  search E (VDict body) tr =
    (Ok failure_object, (tr ++ [listing_event E (username_of body) tr])%list).
Proof.
  intros Hr _ Hj. now apply (search_no_gists E body tr r (VList [])).
Qed.

(** C5 (as amended).  When GitHub answers the listing with 404 and its JSON
    error object, the handler returns the failure object: error "not
    found", status "fail" and no [matches] key.  Any other answer that
    carries a JSON object, whatever its status, yields the very same
    result, so the unknown user is not told apart from an upstream error
    of that kind.  A listing request that ends without a response is told
    apart: its exception leaves the handler. *)
Theorem unknown_user_failure_object E body tr r entries :
  remote E tr (gists_url E (username_of body)) = Responded r ->
  status_code r = 404 ->
  json r = Some (VDict entries) ->
  search E (VDict body) tr =
    (Ok failure_object, (tr ++ [listing_event E (username_of body) tr])%list) /\
  field "error" (fst (search E (VDict body) tr)) = Some (VStr "not found") /\
  field "status" (fst (search E (VDict body) tr)) = Some (VStr "fail") /\
  field "matches" (fst (search E (VDict body) tr)) = None /\
  (forall E' tr' r' entries',
      remote E' tr' (gists_url E' (username_of body)) = Responded r' ->
      json r' = Some (VDict entries') ->
      fst (search E' (VDict body) tr') = fst (search E (VDict body) tr)) /\
  (forall E' tr' e,
      remote E' tr' (gists_url E' (username_of body)) = Failed e ->
      fst (search E' (VDict body) tr') = Raise (RequestException e)).
Proof.
  intros Hr _ Hj.
  assert (Hrun : search E (VDict body) tr =
            (Ok failure_object, (tr ++ [listing_event E (username_of body) tr])%list)).
  { apply (search_no_gists E body tr r (VDict entries)); auto.
    unfold no_gists. now rewrite andb_false_r. }
  split; [exact Hrun|]. rewrite Hrun.
  split; [reflexivity|]. split; [reflexivity|]. split; [reflexivity|]. split.
  - intros E' tr' r' entries' Hr' Hj'.
    rewrite (search_no_gists E' body tr' r' (VDict entries')); auto.
    unfold no_gists. now rewrite andb_false_r.
  - intros E' tr' e He. now rewrite (search_transport_failure E' body tr' e He).
Qed.


(** C6 (as amended).  [gists_for_user] makes exactly one request, to the
    listing endpoint of the user, and returns the page that request brought
    back, whether or not the answer names a next page: no pagination link
    is followed. *)
Theorem gists_for_user_first_page_only E data username tr r page :
  serves E data ->
  data (gists_url E username) = Responded r ->
  json r = Some (VList page) ->
  gists_for_user E username tr =
    (Ok (VList page),
     (tr ++ [{| ev_url := gists_url E username; ev_outcome := Responded r |}])%list).
Proof.
  intros Hs Hr Hj. rewrite gists_for_user_run. unfold listing_event.
  now rewrite Hs, Hr, Hj.
Qed.

(** ** Determinism on a fixed dataset *)

Section Oblivious.

Variable E : Env.
Variable data : Dataset.
Hypothesis Hserves : serves E data.

Lemma oblivious_ret {A} (a : A) : oblivious (ret a).
Proof. intros tr. unfold ret; simpl. now rewrite app_nil_r. Qed.

Lemma oblivious_raise {A} (e : Exn) : oblivious (@raise A e).
Proof. intros tr. unfold raise; simpl. now rewrite app_nil_r. Qed.

Lemma oblivious_bind {A B} (m : M A) (k : A -> M B) :
  oblivious m -> (forall a, oblivious (k a)) -> oblivious (bind m k).
Proof.
  intros Hm Hk tr. unfold bind. rewrite (Hm tr).
  destruct (m []) as [[a|e] t1]; cbn [fst snd]; [|reflexivity].
  rewrite (Hk a (tr ++ t1)%list), (Hk a t1). cbn [fst snd].
  now rewrite app_assoc.
Qed.

Lemma oblivious_try {A} (body : M A) (handler : Response -> M A) :
  oblivious body -> (forall r, oblivious (handler r)) ->
  oblivious (try_except_HTTPError body handler).
Proof.
  intros Hb Hh tr. unfold try_except_HTTPError. rewrite (Hb tr).
  destruct (body []) as [[a|e] t1]; cbn [fst snd]; [reflexivity|].
  destruct e; try reflexivity.
  rewrite (Hh response (tr ++ t1)%list), (Hh response t1). cbn [fst snd].
  now rewrite app_assoc.
Qed.

Lemma oblivious_for_in {A S} (xs : list A) (body : A -> S -> M S) :
  (forall x s, oblivious (body x s)) -> forall s, oblivious (for_in xs body s).
Proof.
  intros Hbody. induction xs as [|x xs IH]; intros s; cbn [for_in].
  - apply oblivious_ret.
  - apply oblivious_bind; auto.
Qed.

Lemma oblivious_http_get url : oblivious (http_get E url).
Proof.
  intros tr. rewrite !(http_get_served E data url _ Hserves).
  reflexivity.
Qed.

Lemma oblivious_subscript v k : oblivious (subscript v k).
Proof.
  unfold subscript. destruct v; try apply oblivious_raise.
  destruct (lookup k entries); [apply oblivious_ret | apply oblivious_raise].
Qed.

Lemma oblivious_response_json r : oblivious (response_json r).
Proof.
  unfold response_json.
  destruct (json r); [apply oblivious_ret | apply oblivious_raise].
Qed.

Lemma oblivious_gists_for_user username : oblivious (gists_for_user E username).
Proof.
  unfold gists_for_user. apply oblivious_try.
  - apply oblivious_bind; [apply oblivious_http_get|]. intros r.
    apply oblivious_bind; [|intros _; apply oblivious_response_json].
    unfold raise_for_status.
    destruct ((400 <=? status_code r) && (status_code r <? 600));
      [apply oblivious_raise | apply oblivious_ret].
  - apply oblivious_response_json.
Qed.

Lemma oblivious_search_file username pattern gist file matches :
  oblivious (search_file E username pattern gist file matches).
Proof.
  unfold search_file.
  apply oblivious_bind; [apply oblivious_subscript|]. intros u.
  apply oblivious_bind; [apply oblivious_http_get|]. intros r.
  apply oblivious_bind.
  - unfold re_search. destruct pattern; try apply oblivious_raise.
    destruct (re_compiles E s); [apply oblivious_ret | apply oblivious_raise].
  - intros [|]; [|apply oblivious_ret].
    apply oblivious_bind; [apply oblivious_subscript|]. intros gid.
    apply oblivious_ret.
Qed.

Lemma oblivious_search_gist username pattern gist matches :
  oblivious (search_gist E username pattern gist matches).
Proof.
  unfold search_gist.
  apply oblivious_bind; [apply oblivious_subscript|]. intros files.
  apply oblivious_bind.
  - unfold dict_values.
    destruct files; try apply oblivious_raise. apply oblivious_ret.
  - intros vs. apply oblivious_for_in. intros file ms.
    apply oblivious_search_file.
Qed.

Lemma oblivious_search post_data : oblivious (search E post_data).
Proof.
  unfold search.
  assert (Hget : forall k, oblivious (dict_get post_data k)).
  { intros k. unfold dict_get.
    destruct post_data; try apply oblivious_raise. apply oblivious_ret. }
  apply oblivious_bind; [apply Hget|]. intros username.
  apply oblivious_bind; [apply Hget|]. intros pattern.
  apply oblivious_bind; [apply oblivious_gists_for_user|]. intros gists.
  destruct (truthy gists && is_list gists); [|apply oblivious_ret].
  apply oblivious_bind; [|intros ms; apply oblivious_ret].
  apply oblivious_for_in. intros gist ms. apply oblivious_search_gist.
Qed.

End Oblivious.

(** C8.  Against an upstream dataset that does not change, running the
    search again, after the first run and whatever it requested, returns
    the same outcome: the same object with the same matches in the same
    order, or the same exception.  More generally the outcome does not
    depend on what was requested before the search starts. *)
Theorem search_is_repeatable E data post_data tr :
  serves E data ->
  fst (search E post_data (snd (search E post_data tr))) =
    fst (search E post_data tr) /\
  (forall tr', fst (search E post_data tr') = fst (search E post_data tr)).
Proof.
  intros Hs.
  assert (H : forall t, fst (search E post_data t) = fst (search E post_data [])).
  { intros t. now rewrite (oblivious_search E data Hs post_data t). }
  split; [|intros tr']; now rewrite H, (H tr).
Qed.

(** ** The trace only grows *)

Lemma appends_ret {A} (a : A) : appends (ret a).
Proof. intros tr. exists []. unfold ret; simpl. now rewrite app_nil_r. Qed.

Lemma appends_raise {A} (e : Exn) : appends (@raise A e).
Proof. intros tr. exists []. unfold raise; simpl. now rewrite app_nil_r. Qed.

Lemma appends_http_get E url : appends (http_get E url).
Proof.
  intros tr. exists [{| ev_url := url; ev_outcome := remote E tr url |}].
  unfold http_get. cbv zeta.
  destruct (remote E tr url); reflexivity.
Qed.

Lemma appends_bind {A B} (m : M A) (k : A -> M B) :
  appends m -> (forall a, appends (k a)) -> appends (bind m k).
Proof.
  intros Hm Hk tr. unfold bind. destruct (Hm tr) as [r1 H1].
  destruct (m tr) as [[a|e] t1]; cbn [snd] in H1; subst t1.
  - destruct (Hk a (tr ++ r1)%list) as [r2 H2]. exists (r1 ++ r2)%list.
    now rewrite H2, app_assoc.
  - now exists r1.
Qed.

Lemma appends_for_in {A S} (xs : list A) (body : A -> S -> M S) :
  (forall x s, appends (body x s)) -> forall s, appends (for_in xs body s).
Proof.
  intros Hbody. induction xs as [|x xs IH]; intros s; cbn [for_in].
  - apply appends_ret.
  - apply appends_bind; auto.
Qed.

Ltac appends_step :=
  first
    [ apply appends_ret
    | apply appends_raise
    | apply appends_http_get
    | apply appends_bind; [|intro]
    | apply appends_for_in; intros
    | match goal with
      | |- appends (match ?x with _ => _ end) => destruct x
      end ].

Lemma appends_search_gist E username pattern gist matches :
  appends (search_gist E username pattern gist matches).
Proof.
  unfold search_gist, search_file, subscript, dict_values, re_search.
  repeat appends_step.
Qed.

(** The handler as one case analysis on what [gists_for_user] returns. *)
Lemma search_unfold E body tr :
  search E (VDict body) tr =
    match gists_for_user E (username_of body) tr with
    | (Ok gists, tr1) =>
        if truthy gists && is_list gists then
          match for_in (list_items gists)
                  (search_gist E (username_of body) (pattern_of body)) [] tr1 with
          | (Ok matches, tr2) =>
              (Ok (success_object (username_of body) (pattern_of body) matches), tr2)
          | (Raise e, tr2) => (Raise e, tr2)
          end
        else (Ok failure_object, tr1)
    | (Raise e, tr1) => (Raise e, tr1)
    end.
Proof.
  unfold search, dict_get.
  unfold bind at 1, ret at 1. unfold bind at 1, ret at 1.
  fold (username_of body). fold (pattern_of body). unfold bind at 1.
  destruct (gists_for_user E (username_of body) tr) as [[gists|e] tr1]; [|reflexivity].
  destruct (truthy gists && is_list gists); [|reflexivity].
  unfold bind, ret.
  now destruct (for_in _ _ _ tr1) as [[ms|e] tr2].
Qed.

Lemma search_requests_listing_first E body tr :
  exists rest,
    snd (search E (VDict body) tr) =
      (tr ++ listing_event E (username_of body) tr :: rest)%list.
Proof.
  rewrite search_unfold, gists_for_user_run.
  set (tr1 := (tr ++ [listing_event E (username_of body) tr])%list).
  assert (Hnil : tr1 = (tr ++ listing_event E (username_of body) tr :: [])%list)
    by reflexivity.
  destruct (remote E tr (gists_url E (username_of body))) as [r|e];
    [|now exists []].
  destruct (json r) as [gists|]; [|now exists []].
  destruct (truthy gists && is_list gists); [|now exists []].
  destruct (appends_for_in (list_items gists)
              (search_gist E (username_of body) (pattern_of body))
              (appends_search_gist E _ _) [] tr1) as [rest Hrest].
  exists rest.
  destruct (for_in _ _ _ tr1) as [[ms|e] tr2]; cbn [snd] in *; subst tr2;
    unfold tr1; now rewrite <- app_assoc.
Qed.

(** ** A matcher that raises on every body *)

Section FailingMatcher.

Variable E : Env.
Variables (username pattern : value) (e : Exn).
Hypothesis Hbad : forall s tr, re_search E pattern s tr = (Raise e, tr).

Lemma no_fetch_shape_error acc tr e' :
  shape_error e' = true ->
  first_fetch_outcome e acc tr (Raise e', tr).
Proof. intros H. left. split; [reflexivity|]. right. now exists e'. Qed.

Lemma search_file_failing_matcher gist file acc tr :
  first_fetch_outcome e acc tr (search_file E username pattern gist file acc tr).
Proof.
  unfold search_file, subscript.
  destruct file as [| | | | | |entries];
    try (now apply no_fetch_shape_error).
  destruct (lookup "raw_url" entries) as [u|];
    [|now apply no_fetch_shape_error].
  unfold bind at 1, ret at 1. unfold bind at 1, http_get. cbv zeta.
  destruct (remote E tr (py_str E u)) as [r|err].
  - unfold bind. rewrite Hbad. right; right.
    eexists. split; [reflexivity|]. split; reflexivity.
  - right; left. eexists; exists err.
    split; [reflexivity|]. split; reflexivity.
Qed.

Lemma files_loop_failing_matcher gist files :
  forall acc tr,
    first_fetch_outcome e acc tr
      (for_in files (search_file E username pattern gist) acc tr).
Proof.
  induction files as [|file files IH]; intros acc tr; cbn [for_in].
  - left. split; [reflexivity|]. now left.
  - pose proof (search_file_failing_matcher gist file acc tr) as H.
    unfold bind.
    destruct (search_file E username pattern gist file acc tr) as [[ms|x] tr1].
    + destruct H as [[Htr [Hok|(e' & Hx & _)]]|[(ev & err & _ & _ & Hx)|(ev & _ & _ & Hx)]];
        cbn [fst snd] in *; try discriminate.
      injection Hok as ->. subst tr1. apply IH.
    + exact H.
Qed.

Lemma gists_loop_failing_matcher gists :
  forall acc tr,
    first_fetch_outcome e acc tr
      (for_in gists (search_gist E username pattern) acc tr).
Proof.
  induction gists as [|gist gists IH]; intros acc tr; cbn [for_in].
  - left. split; [reflexivity|]. now left.
  - assert (H : first_fetch_outcome e acc tr
                  (search_gist E username pattern gist acc tr)).
    { unfold search_gist, subscript.
      destruct gist as [| | | | | |d];
        try (now apply no_fetch_shape_error).
      destruct (lookup "files" d) as [files|];
        [|now apply no_fetch_shape_error].
      unfold bind at 1, ret at 1. unfold dict_values.
      destruct files as [| | | | | |fs];
        try (now apply no_fetch_shape_error).
      unfold bind at 1, ret at 1. apply files_loop_failing_matcher. }
    unfold bind.
    destruct (search_gist E username pattern gist acc tr) as [[ms|x] tr1].
    + destruct H as [[Htr [Hok|(e' & Hx & _)]]|[(ev & err & _ & _ & Hx)|(ev & _ & _ & Hx)]];
        cbn [fst snd] in *; try discriminate.
      injection Hok as ->. subst tr1. apply IH.
    + exact H.
Qed.

End FailingMatcher.

Lemma search_failing_matcher E body e tr :
  (forall s t, re_search E (pattern_of body) s t = (Raise e, t)) ->
  exists rest,
    snd (search E (VDict body) tr) =
      (tr ++ listing_event E (username_of body) tr :: rest)%list /\
    ((rest = [] /\ fst (search E (VDict body) tr) <> Raise ReError) \/
     (exists ev err, rest = [ev] /\ ev_outcome ev = Failed err /\
        fst (search E (VDict body) tr) = Raise (RequestException err)) \/
     (exists ev, rest = [ev] /\ responded ev = true /\
        fst (search E (VDict body) tr) = Raise e)).
Proof.
  intros Hbad. rewrite search_unfold, gists_for_user_run.
  set (ev0 := listing_event E (username_of body) tr).
  assert (Hnil : (tr ++ [ev0] = tr ++ ev0 :: [])%list) by reflexivity.
  assert (Hone : forall ev, ((tr ++ [ev0]) ++ [ev] = tr ++ ev0 :: [ev])%list)
    by (intros ev; now rewrite <- app_assoc).
  destruct (remote E tr (gists_url E (username_of body))) as [r|err].
  2:{ exists []. split; [reflexivity|]. left. split; [reflexivity|discriminate]. }
  destruct (json r) as [gists|].
  2:{ exists []. split; [reflexivity|]. left. split; [reflexivity|discriminate]. }
  destruct (truthy gists && is_list gists).
  2:{ exists []. split; [reflexivity|]. left. split; [reflexivity|discriminate]. }
  pose proof (gists_loop_failing_matcher E (username_of body) (pattern_of body) e
                Hbad (list_items gists) [] (tr ++ [ev0])%list) as H.
  destruct (for_in _ _ _ (tr ++ [ev0])%list) as [[ms|x] tr2].
  - destruct H as [[Htr _]|[(ev & err & _ & _ & Hx)|(ev & _ & _ & Hx)]];
      cbn [fst snd] in *; try discriminate.
    subst tr2. exists []. split; [exact Hnil|]. left. split; [reflexivity|discriminate].
  - destruct H as [[Htr [Hok|(e' & Hx & Hshape)]]|[(ev & err & Htr & Hev & Hx)|(ev & Htr & Hev & Hx)]];
      cbn [fst snd] in *; try discriminate; subst tr2.
    + injection Hx as ->. exists []. split; [exact Hnil|]. left.
      split; [reflexivity|]. intros [= ->]. discriminate.
    + exists [ev]. split; [apply Hone|]. right; left.
      injection Hx as ->. exists ev, err. repeat split; assumption.
    + exists [ev]. split; [apply Hone|]. right; right.
      injection Hx as ->. exists ev. repeat split; assumption.
Qed.

(** ** The claims on the request body *)

(** C3 (as amended).  The handler validates nothing.  Whatever the username
    and the pattern of the request, empty ones included, its first act is
    the listing request.  A pattern that does not compile is noticed only
    when the first fetched body is matched: the error of [re] then escapes
    as an uncaught exception, after the listing request and one raw-content
    fetch; as long as no body is fetched it is not noticed at all. *)
Theorem pattern_is_not_validated E body tr :
  exists rest,
    snd (search E (VDict body) tr) =
      (tr ++ listing_event E (username_of body) tr :: rest)%list /\
    forall p,
      lookup "pattern" body = Some (VStr p) ->
      re_compiles E p = false ->
      (forall ev, In ev rest -> responded ev = true ->
         fst (search E (VDict body) tr) = Raise ReError) /\
      (fst (search E (VDict body) tr) = Raise ReError ->
         exists ev, rest = [ev] /\ responded ev = true).
Proof.
  destruct (search_requests_listing_first E body tr) as [rest Hrest].
  exists rest. split; [exact Hrest|]. intros p Hp Hc.
  destruct (search_failing_matcher E body ReError tr) as (rest' & Htr & Hcases).
  { intros s t. unfold pattern_of, re_search. now rewrite Hp, Hc. }
  rewrite Hrest in Htr. apply app_inv_head in Htr. injection Htr as <-.
  destruct Hcases as [[-> Hne]|[(ev & err & -> & Hev & Hx)|(ev & -> & Hev & Hx)]].
  - split; [intros ev []|]. intros H. contradiction.
  - split.
    + intros ev' [<-|[]] Hresp. unfold responded in Hresp.
      rewrite Hev in Hresp. discriminate.
    + rewrite Hx. discriminate.
  - split.
    + intros ev' _ _. exact Hx.
    + intros _. now exists ev.
Qed.

(** C10.  A request body without the username or the pattern key is not
    rejected: the missing value is None and the listing request goes out
    all the same, for the user named "None" when the username is the
    missing one; when the pattern is missing, fetching a file body makes
    the matcher raise a TypeError, which escapes the handler. *)
Theorem missing_keys_become_none E body tr :
  lookup "username" body = None \/ lookup "pattern" body = None ->
  exists rest,
    snd (search E (VDict body) tr) =
      (tr ++ listing_event E (username_of body) tr :: rest)%list /\
    (lookup "username" body = None ->
       ev_url (listing_event E (username_of body) tr) =
         "https://api.github.com/users/None/gists") /\
    (lookup "pattern" body = None ->
       forall ev, In ev rest -> responded ev = true ->
         fst (search E (VDict body) tr) = Raise TypeError).
Proof.
  intros _.
  destruct (search_requests_listing_first E body tr) as [rest Hrest].
  exists rest. split; [exact Hrest|]. split.
  - intros Hu. unfold username_of. now rewrite Hu.
  - intros Hp.
    destruct (search_failing_matcher E body TypeError tr) as (rest' & Htr & Hcases).
    { intros s t. unfold pattern_of. now rewrite Hp. }
    rewrite Hrest in Htr. apply app_inv_head in Htr. injection Htr as <-.
    destruct Hcases as [[-> Hne]|[(ev & err & -> & Hev & Hx)|(ev & -> & Hev & Hx)]].
    + intros ev [].
    + intros ev' [<-|[]] Hresp. unfold responded in Hresp.
      rewrite Hev in Hresp. discriminate.
    + intros ev' _ _. exact Hx.
Qed.

(** * The claims on the example upstreams *)

Ltac example_well_formed :=
  constructor;
  [ intros ? ?; reflexivity
  | reflexivity
  | reflexivity
  | eexists; eexists;
    split; [reflexivity|];
    split; [reflexivity|];
    split; [discriminate|reflexivity] ].

(** The scenario of the specification: the gist of alice is listed once. *)
Example scenario_todo :
  fst (search (fixed_env scenario_data) (request_body "alice" "TODO") []) =
    Ok (success_object (VStr "alice") (VStr "TODO") [VStr g1_url]).
Proof. reflexivity. Qed.

(** C1 as stated fails: "TODO: fix" matches a.py and c.py and no other
    file, both belong to g1, and the URL of g1 is returned twice. *)
Lemma same_gist_listed_twice :
  map file_name
      (filter (file_matches (fixed_env alice_data) alice_data "TODO: fix")
              (all_files alice_refs)) = ["a.py"; "c.py"] /\
  field "matches"
        (fst (search (fixed_env alice_data) (request_body "alice" "TODO: fix") [])) =
    Some (VList [VStr g1_url; VStr g1_url]) /\
  ~ NoDup [VStr g1_url; VStr g1_url].
Proof.
  split; [reflexivity|]. split; [reflexivity|].
  intros H. inversion H as [|x l Hnotin _]. apply Hnotin. now left.
Qed.

Lemma matches_one_entry_per_matching_file_witness :
  well_formed_search (fixed_env alice_data) alice_data
    [("username", VStr "alice"); ("pattern", VStr "TODO: fix")] "TODO: fix" alice_refs /\
  first_failure (fixed_env alice_data) alice_data (all_files alice_refs) = None /\
  count_occ string_dec
    (traversal_matches (fixed_env alice_data) alice_data (VStr "alice")
       "TODO: fix" alice_refs) g1_url = 2%nat.
Proof.
  split; [example_well_formed|]. split; [reflexivity|].
  destruct (matches_one_entry_per_matching_file (fixed_env alice_data) alice_data
              [("username", VStr "alice"); ("pattern", VStr "TODO: fix")]
              "TODO: fix" alice_refs [])
    as (_ & _ & Hcount); [example_well_formed|reflexivity|].
  rewrite Hcount. reflexivity.
Defined.

Lemma matches_follow_traversal_order_witness :
  well_formed_search (fixed_env alice_data) alice_data
    [("username", VStr "alice"); ("pattern", VStr "TODO")] "TODO" alice_refs /\
  first_failure (fixed_env alice_data) alice_data (all_files alice_refs) = None /\
  fst (search (fixed_env alice_data) (request_body "alice" "TODO") []) =
    Ok (VDict [("username", VStr "alice"); ("pattern", VStr "TODO");
               ("matches", VList [VStr g1_url; VStr g1_url; VStr g2_url]);
               ("status", VStr "success")]) /\
  field "matches"
        (fst (search (fixed_env alice_data) (request_body "alice" "TODO") [])) =
    Some (VList [VStr g1_url; VStr g1_url; VStr g2_url]) /\
  map ev_url (snd (search (fixed_env alice_data) (request_body "alice" "TODO") [])) =
    [listing_of "alice"; raw_of "alice" "g1" "a.py"; raw_of "alice" "g1" "b.py";
     raw_of "alice" "g1" "c.py"; raw_of "alice" "g2" "d.py"].
Proof.
  split; [example_well_formed|]. split; [reflexivity|].
  split; [reflexivity|].
  destruct (matches_follow_traversal_order (fixed_env alice_data) alice_data
              [("username", VStr "alice"); ("pattern", VStr "TODO")]
              "TODO" alice_refs [])
    as (Hmatches & _ & Htrace); [example_well_formed|reflexivity|].
  unfold request_body. rewrite Hmatches, Htrace. split; reflexivity.
Defined.



(** C2 as stated fails: bob has no gists, the listing succeeds with an
    empty array, and the answer is the failure object. *)
Lemma empty_listing_is_not_a_success :
  bob_data (listing_of "bob") = json_response 200 (VList []) None /\
  fst (search (fixed_env bob_data) (request_body "bob" "TODO") []) = Ok failure_object /\
  field "status" (fst (search (fixed_env bob_data) (request_body "bob" "TODO") [])) =
    Some (VStr "fail") /\
  field "matches" (fst (search (fixed_env bob_data) (request_body "bob" "TODO") [])) =
    None.
Proof. repeat split; reflexivity. Qed.

Lemma empty_listing_is_reported_as_failure_witness :
  fst (search (fixed_env bob_data) (request_body "bob" "TODO") []) = Ok failure_object.
Proof.
  unfold request_body.
  rewrite (empty_listing_is_reported_as_failure (fixed_env bob_data)
             [("username", VStr "bob"); ("pattern", VStr "TODO")] []
             {| status_code := 200; text := json_text (VList []);
                json := Some (VList []); next_link := None |});
    reflexivity.
Defined.

(** C5 as stated fails: an unknown user (404) and an outage of GitHub (500)
    get the same answer. *)
Lemma unknown_user_looks_like_an_outage :
  nobody_data (listing_of "nobody") = json_response 404 not_found_body None /\
  outage_data (listing_of "nobody") = json_response 500 server_error_body None /\
  fst (search (fixed_env nobody_data) (request_body "nobody" "TODO") []) =
    Ok failure_object /\
  fst (search (fixed_env outage_data) (request_body "nobody" "TODO") []) =
    fst (search (fixed_env nobody_data) (request_body "nobody" "TODO") []).
Proof. repeat split; reflexivity. Qed.

Lemma unknown_user_failure_object_witness :
  field "error"
        (fst (search (fixed_env nobody_data) (request_body "nobody" "TODO") [])) =
    Some (VStr "not found") /\
  field "matches"
        (fst (search (fixed_env nobody_data) (request_body "nobody" "TODO") [])) =
    None /\
  fst (search (fixed_env outage_data) (request_body "nobody" "TODO") []) =
    fst (search (fixed_env nobody_data) (request_body "nobody" "TODO") []) /\
  fst (search (fixed_env outage_data) (request_body "nobody" "TODO") []) =
    Ok (VDict [("error", VStr "not found"); ("message", VStr "invalid user");
               ("status", VStr "fail")]).
Proof.
  unfold request_body.
  destruct (unknown_user_failure_object (fixed_env nobody_data)
              [("username", VStr "nobody"); ("pattern", VStr "TODO")] []
              {| status_code := 404; text := json_text not_found_body;
                 json := Some not_found_body; next_link := None |}
              [("message", VStr "Not Found");
               ("documentation_url", VStr "https://docs.github.com/rest")])
    as (_ & Herror & _ & Hmatches & Hsame & _); [reflexivity..|].
  split; [exact Herror|]. split; [exact Hmatches|]. split; [|reflexivity].
  apply (Hsame (fixed_env outage_data) []
           {| status_code := 500; text := json_text server_error_body;
              json := Some server_error_body; next_link := None |}
           [("message", VStr "Server Error")]); reflexivity.
Defined.



(** C6 as stated fails: the listing of carol has two pages; following the
    next link yields g1 and g2, [gists_for_user] makes one request and
    returns g1 alone, and the TODO in the file of g2 is never found. *)
Lemma second_page_is_never_requested :
  spec_ListGists 2 carol_data (listing_of "carol") =
    Some [gist_entry "carol" "g1" ["a.py"]; gist_entry "carol" "g2" ["b.py"]] /\
  fst (gists_for_user (fixed_env carol_data) (VStr "carol") []) =
    Ok (VList [gist_entry "carol" "g1" ["a.py"]]) /\
  map ev_url (snd (gists_for_user (fixed_env carol_data) (VStr "carol") [])) =
    [listing_of "carol"] /\
  carol_data (raw_of "carol" "g2" "b.py") = text_response 200 "TODO" /\
  field "matches"
        (fst (search (fixed_env carol_data) (request_body "carol" "TODO") [])) =
    Some (VList []).
Proof. repeat split; reflexivity. Qed.

Lemma gists_for_user_first_page_only_witness :
  map ev_url (snd (gists_for_user (fixed_env carol_data) (VStr "carol") [])) =
    [listing_of "carol"] /\
  fst (gists_for_user (fixed_env carol_data) (VStr "carol") []) =
    Ok (VList [gist_entry "carol" "g1" ["a.py"]]).
Proof.
  rewrite (gists_for_user_first_page_only (fixed_env carol_data) carol_data
             (VStr "carol") []
             {| status_code := 200;
                text := json_text (VList [gist_entry "carol" "g1" ["a.py"]]);
                json := Some (VList [gist_entry "carol" "g1" ["a.py"]]);
                next_link := Some carol_page2 |}
             [gist_entry "carol" "g1" ["a.py"]]);
    [split; reflexivity | intros ? ?; reflexivity | reflexivity | reflexivity].
Defined.

(** C3 as stated fails: with the pattern "(", which does not compile, the
    listing and the first file are requested and the handler ends with the
    exception of the matcher; an empty username and an empty pattern are
    sent to the listing endpoint as they are. *)
Lemma invalid_pattern_reaches_the_network :
  re_compiles (fixed_env alice_data) "(" = false /\
  fst (search (fixed_env alice_data) (request_body "alice" "(") []) = Raise ReError /\
  map ev_url (snd (search (fixed_env alice_data) (request_body "alice" "(") [])) =
    [listing_of "alice"; raw_of "alice" "g1" "a.py"] /\
  map ev_url (snd (search (fixed_env alice_data) (request_body "" "") [])) =
    ["https://api.github.com/users//gists"].
Proof. repeat split; reflexivity. Qed.

Lemma pattern_is_not_validated_witness :
  exists rest,
    snd (search (fixed_env alice_data) (request_body "alice" "(") []) =
      listing_event (fixed_env alice_data) (VStr "alice") [] :: rest /\
    fst (search (fixed_env alice_data) (request_body "alice" "(") []) = Raise ReError.
Proof.
  destruct (pattern_is_not_validated (fixed_env alice_data)
              [("username", VStr "alice"); ("pattern", VStr "(")] [])
    as (rest & Htr & Hp).
  exists rest. split; [exact Htr|]. reflexivity.
Defined.

Lemma search_is_repeatable_witness :
  fst (search (fixed_env alice_data) (request_body "alice" "TODO")
         (snd (search (fixed_env alice_data) (request_body "alice" "TODO") []))) =
    fst (search (fixed_env alice_data) (request_body "alice" "TODO") []).
Proof.
  apply (search_is_repeatable (fixed_env alice_data) alice_data
           (request_body "alice" "TODO") []).
  intros ? ?; reflexivity.
Defined.

Lemma missing_keys_become_none_witness :
  lookup "pattern" [("username", VStr "alice")] = None /\
  exists rest,
    snd (search (fixed_env alice_data) no_pattern_body []) =
      listing_event (fixed_env alice_data) (VStr "alice") [] :: rest /\
    fst (search (fixed_env alice_data) no_pattern_body []) = Raise TypeError.
Proof.
  split; [reflexivity|].
  destruct (missing_keys_become_none (fixed_env alice_data)
              [("username", VStr "alice")] [])
    as (rest & Htr & _ & _); [right; reflexivity|].
  exists rest. split; [exact Htr|]. reflexivity.
Defined.

(** Without a username the listing of the user "None" is requested. *)
Example missing_username_requests_none :
  map ev_url (snd (search (fixed_env alice_data) no_username_body [])) =
    ["https://api.github.com/users/None/gists"].
Proof. reflexivity. Qed.

(** * Further properties of the handler *)

(** ** The listing request *)

(** X1.  Whatever the status code of the answer, [gists_for_user] returns
    the parsed body, or raises the decoding error when the body is not
    JSON, after its one request; the HTTP error of an error status is
    caught and never leaves the function. *)
Theorem gists_for_user_swallows_http_errors E username tr r :
  remote E tr (gists_url E username) = Responded r ->
  gists_for_user E username tr =
    (match json r with
     | Some v => Ok v
     | None => Raise JSONDecodeError
     end,
     (tr ++ [{| ev_url := gists_url E username; ev_outcome := Responded r |}])%list) /\
  forall r', fst (gists_for_user E username tr) <> Raise (HTTPError r').
Proof.
  intros Hr. rewrite gists_for_user_run. unfold listing_event. rewrite Hr.
  split; [reflexivity|]. intros r'. cbn [fst].
  destruct (json r); discriminate.
Qed.

(** X2.  When the listing is answered with a body that is not JSON, an
    error page of a gateway for one, the decoding error escapes the
    handler after the listing request: no object is returned. *)
Theorem non_json_listing_raises E body tr r :
  remote E tr (gists_url E (username_of body)) = Responded r ->
  json r = None ->
  search E (VDict body) tr =
    (Raise JSONDecodeError, (tr ++ [listing_event E (username_of body) tr])%list).
Proof.
  intros Hr Hj. now rewrite search_unfold, gists_for_user_run, Hr, Hj.
Qed.

(** X3.  A request body that is not a JSON object (null, an array, a
    string, a number) makes the handler raise an AttributeError at once:
    no request is made. *)
Theorem search_rejects_non_object_body E post_data tr :
  is_dict post_data = false ->
  search E post_data tr = (Raise AttributeError, tr).
Proof.
  intros H. destruct post_data; try discriminate; reflexivity.
Qed.

(** X4.  When the listing is answered with JSON, the handler returns the
    failure object exactly when that JSON is anything but an array with at
    least one element: null, a number, a string, an object, even a
    non-empty one, and the empty array all get it; no array with an
    element does. *)
Theorem failure_object_iff_no_gists E body tr r v :
  remote E tr (gists_url E (username_of body)) = Responded r ->
  json r = Some v ->
  fst (search E (VDict body) tr) = Ok failure_object <->
  (forall x xs, v <> VList (x :: xs)).
Proof.
  intros Hr Hj. split.
  - intros Hres x xs ->.
    rewrite (search_listing E body tr r (x :: xs) Hr Hj) in Hres; [|discriminate].
    destruct (for_in _ _ _ _) as [[ms|e] tr2]; discriminate.
  - intros Hv. rewrite (search_no_gists E body tr r v Hr Hj); [reflexivity|].
    unfold no_gists.
    destruct v as [| | | | |[|x xs]|]; try (now rewrite andb_false_r); [reflexivity|].
    now destruct (Hv x xs).
Qed.

(** ** The loops on a listing of any shape *)

Lemma orderly_raise urls owners acc tr e :
  orderly urls owners acc tr (Raise e, tr).
Proof.
  exists [], urls. cbn [fst snd map app]. rewrite app_nil_r.
  repeat split; discriminate.
Qed.

Lemma orderly_ret owners acc tr :
  orderly [] owners acc tr (Ok acc, tr).
Proof.
  exists [], []. cbn [fst snd map app]. rewrite app_nil_r.
  split; [reflexivity|]. split; [reflexivity|].
  intros ms [= <-]. split; [reflexivity|]. split; [reflexivity|].
  exists []. rewrite app_nil_r. split; [reflexivity|].
  split; [intros x []|apply le_n].
Qed.

Lemma orderly_bind urls1 urls2 owners1 owners2 owners acc tr
    (m : M (list value)) (k : list value -> M (list value)) :
  incl owners1 owners -> incl owners2 owners ->
  orderly urls1 owners1 acc tr (m tr) ->
  (forall s t, orderly urls2 owners2 s t (k s t)) ->
  orderly (urls1 ++ urls2) owners acc tr (bind m k tr).
Proof.
  intros Ho1 Ho2 (rest1 & later1 & Htr1 & Hu1 & Hok1) Hk. unfold bind.
  destruct (m tr) as [[s|e] tr1]; cbn [fst snd] in *; subst tr1.
  - destruct (Hok1 s eq_refl) as (-> & Hresp1 & new1 & -> & Hin1 & Hlen1).
    destruct (Hk (acc ++ new1)%list (tr ++ rest1)%list)
      as (rest2 & later2 & Htr2 & Hu2 & Hok2).
    exists (rest1 ++ rest2)%list, later2. split; [now rewrite Htr2, app_assoc|].
    split.
    + rewrite Hu1, Hu2, app_nil_r, map_app. now rewrite app_assoc.
    + intros ms Hms.
      destruct (Hok2 ms Hms) as (-> & Hresp2 & new2 & -> & Hin2 & Hlen2).
      split; [reflexivity|]. split.
      * rewrite forallb_app, Hresp1, Hresp2. reflexivity.
      * exists (new1 ++ new2)%list. split; [now rewrite app_assoc|]. split.
        -- apply incl_app; eapply incl_tran; eassumption.
        -- rewrite !length_app. lia.
  - exists rest1, (later1 ++ urls2)%list. split; [reflexivity|].
    split; [now rewrite Hu1, app_assoc | discriminate].
Qed.

Section AnyListing.

Variable E : Env.
Variables username pattern : value.

Lemma search_file_orderly gist file acc tr :
  orderly (raw_url_of E file) (gist_url_of E username gist) acc tr
    (search_file E username pattern gist file acc tr).
Proof.
  unfold search_file, subscript, raw_url_of.
  destruct file as [| | | | | |fd]; try apply orderly_raise.
  destruct (lookup "raw_url" fd) as [u|]; [|apply orderly_raise].
  unfold bind at 1, ret at 1. unfold bind at 1, http_get. cbv zeta.
  set (ev := {| ev_url := py_str E u; ev_outcome := remote E tr (py_str E u) |}).
  assert (Hraise : forall e,
            orderly [py_str E u] (gist_url_of E username gist) acc tr
              (Raise e, (tr ++ [ev])%list)).
  { intros e. exists [ev], []. repeat split; discriminate. }
  assert (Hok : forall new,
            responded ev = true -> incl new (gist_url_of E username gist) ->
            (length new <= 1)%nat ->
            orderly [py_str E u] (gist_url_of E username gist) acc tr
              (Ok (acc ++ new)%list, (tr ++ [ev])%list)).
  { intros new Hresp Hin Hlen. exists [ev], []. split; [reflexivity|].
    split; [reflexivity|]. intros ms [= <-]. split; [reflexivity|].
    split; [cbn; now rewrite Hresp|]. now exists new. }
  destruct (remote E tr (py_str E u)) as [r|err] eqn:Hr; [|apply Hraise].
  assert (Hresp : responded ev = true) by reflexivity.
  unfold bind at 1, re_search.
  destruct pattern as [| | | |p| |]; try apply Hraise.
  destruct (re_compiles E p); [|apply Hraise].
  unfold ret at 1. destruct (re_found E p (text r)).
  - unfold gist_url_of in *.
    destruct gist as [| | | | | |d]; try apply Hraise.
    destruct (lookup "id" d) as [gid|]; [|apply Hraise].
    unfold bind, ret. apply Hok; [assumption|apply incl_refl|apply le_n].
  - unfold ret. rewrite <- (app_nil_r acc) at 2.
    apply Hok; [assumption|intros x []|apply le_0_n].
Qed.

Lemma files_loop_orderly gist files :
  forall acc tr,
    orderly (flat_map (raw_url_of E) files) (gist_url_of E username gist) acc tr
      (for_in files (search_file E username pattern gist) acc tr).
Proof.
  induction files as [|file files IH]; intros acc tr; cbn [for_in flat_map].
  - apply orderly_ret.
  - apply orderly_bind with (owners1 := gist_url_of E username gist)
                            (owners2 := gist_url_of E username gist);
      try apply incl_refl; [apply search_file_orderly|assumption].
Qed.

Lemma search_gist_orderly gist acc tr :
  orderly (flat_map (raw_url_of E) (files_of gist)) (gist_url_of E username gist)
    acc tr (search_gist E username pattern gist acc tr).
Proof.
  unfold search_gist, subscript, files_of.
  destruct gist as [| | | | | |d]; try apply orderly_raise.
  destruct (lookup "files" d) as [files|]; [|apply orderly_raise].
  unfold bind at 1, ret at 1. unfold dict_values.
  destruct files as [| | | | | |fs]; try apply orderly_raise.
  unfold bind at 1, ret at 1. apply files_loop_orderly.
Qed.

Lemma gists_loop_orderly listing :
  forall acc tr,
    orderly (raw_urls E listing) (gist_urls E username listing) acc tr
      (for_in listing (search_gist E username pattern) acc tr).
Proof.
  induction listing as [|gist listing IH]; intros acc tr;
    unfold raw_urls, gist_urls; cbn [for_in flat_map].
  - apply orderly_ret.
  - apply orderly_bind with (owners1 := gist_url_of E username gist)
                            (owners2 := gist_urls E username listing);
      [apply incl_appl, incl_refl | apply incl_appr, incl_refl
      | apply search_gist_orderly | exact IH].
Qed.

End AnyListing.

Lemma search_orderly E body tr r listing :
  remote E tr (gists_url E (username_of body)) = Responded r ->
  json r = Some (VList listing) ->
  listing <> [] ->
  exists rest later,
    snd (search E (VDict body) tr) =
      (tr ++ listing_event E (username_of body) tr :: rest)%list /\
    raw_urls E listing = (map ev_url rest ++ later)%list /\
    forall obj, fst (search E (VDict body) tr) = Ok obj ->
      later = [] /\ forallb responded rest = true /\
      exists ms, obj = success_object (username_of body) (pattern_of body) ms /\
                 incl ms (gist_urls E (username_of body) listing) /\
                 (length ms <= length rest)%nat.
Proof.
  intros Hr Hj Hne. rewrite (search_listing E body tr r listing Hr Hj Hne).
  destruct (gists_loop_orderly E (username_of body) (pattern_of body) listing []
              (tr ++ [listing_event E (username_of body) tr])%list)
    as (rest & later & Htr & Hu & Hok).
  exists rest, later.
  destruct (for_in _ _ _ _) as [[ms|e] tr2]; cbn [fst snd] in *; subst tr2.
  - split; [now rewrite <- app_assoc|]. split; [assumption|].
    intros obj [= <-].
    destruct (Hok ms eq_refl) as (Hl & Hresp & new & -> & Hin & Hlen).
    split; [assumption|]. split; [assumption|]. now exists new.
  - split; [now rewrite <- app_assoc|]. split; [assumption|discriminate].
Qed.

(** ** What a search requests and what it lists *)

(** X5.  On a listing of any shape, the requests that follow the listing
    request go to the raw URLs of the listing, in gist order and then file
    order, without skipping any: they are an initial segment of those
    URLs.  When the handler returns an object, every raw URL has been
    requested and every request was answered. *)
Theorem fetches_follow_listing_order E body tr r listing :
  remote E tr (gists_url E (username_of body)) = Responded r ->
  json r = Some (VList listing) ->
  listing <> [] ->
  exists rest later,
    snd (search E (VDict body) tr) =
      (tr ++ listing_event E (username_of body) tr :: rest)%list /\
    raw_urls E listing = (map ev_url rest ++ later)%list /\
    forall obj, fst (search E (VDict body) tr) = Ok obj ->
      later = [] /\ forallb responded rest = true.
Proof.
  intros Hr Hj Hne.
  destruct (search_orderly E body tr r listing Hr Hj Hne)
    as (rest & later & Htr & Hu & Hok).
  exists rest, later. split; [assumption|]. split; [assumption|].
  intros obj Hobj. destruct (Hok obj Hobj) as (Hl & Hresp & _). now split.
Qed.


(** X7.  When the listing has at least one file with a raw URL, the
    handler returns an object only if the pattern of the request is a
    string that compiles: with a missing, non-string or invalid pattern the
    search of such a listing always ends in an exception. *)
Theorem success_needs_usable_pattern E body tr r listing obj :
  remote E tr (gists_url E (username_of body)) = Responded r ->
  json r = Some (VList listing) ->
  raw_urls E listing <> [] ->
  fst (search E (VDict body) tr) = Ok obj ->
  usable_pattern E (pattern_of body) = true.
Proof.
  intros Hr Hj Hfiles Hobj.
  assert (Hne : listing <> []) by (intros ->; now apply Hfiles).
  destruct (search_orderly E body tr r listing Hr Hj Hne)
    as (rest & later & Htr & Hu & Hok).
  destruct (Hok obj Hobj) as (-> & _ & _). rewrite app_nil_r in Hu.
  destruct (usable_pattern E (pattern_of body)) eqn:Hpat; [reflexivity|exfalso].
  assert (Hbad : exists e, forall s t,
             re_search E (pattern_of body) s t = (Raise e, t)).
  { unfold usable_pattern in Hpat. unfold re_search.
    destruct (pattern_of body) as [| | | |p| |];
      try (now exists TypeError).
    rewrite Hpat. now exists ReError. }
  destruct Hbad as [e Hbad].
  destruct (search_failing_matcher E body e tr Hbad) as (rest' & Htr' & Hcases).
  rewrite Htr in Htr'. apply app_inv_head in Htr'. injection Htr' as <-.
  rewrite Hobj in Hcases.
  destruct Hcases as [[-> _]|[(ev & err & _ & _ & Hx)|(ev & _ & _ & Hx)]];
    try discriminate.
  now apply Hfiles.
Qed.




(** ** A listing that goes wrong after a well-formed start *)

Lemma for_in_app {A S} (xs ys : list A) (body : A -> S -> M S) :
  forall s tr,
    for_in (xs ++ ys) body s tr =
      match for_in xs body s tr with
      | (Ok s', tr') => for_in ys body s' tr'
      | (Raise e, tr') => (Raise e, tr')
      end.
Proof.
  induction xs as [|x xs IH]; intros s tr; [reflexivity|].
  cbn [app for_in]. unfold bind.
  destruct (body x s tr) as [[s'|e] tr']; [apply IH|reflexivity].
Qed.

Lemma search_after_prefix E data body p pre rest gists tr :
  well_formed_prefix E data body p pre rest gists ->
  rest <> [] ->
  search E (VDict body) tr =
    match for_in rest (search_gist E (username_of body) (VStr p))
            (map VStr (traversal_matches E data (username_of body) p gists))
            (tr ++ listing_event E (username_of body) tr
                :: map (fetch_event E data) (all_files gists))%list with
    | (Ok matches, tr') =>
        (Ok (success_object (username_of body) (VStr p) matches), tr')
    | (Raise e, tr') => (Raise e, tr')
    end.
Proof.
  intros [Hs Hp Hc (r & Hr & Hj) Hview Hnone] Hne.
  rewrite (search_listing E body tr r (pre ++ rest)%list);
    [|now rewrite Hs|assumption|].
  2:{ intros H. apply app_eq_nil in H as [_ H]. contradiction. }
  unfold pattern_of. rewrite Hp, for_in_app.
  rewrite (gists_loop_run E data _ p Hs Hc pre gists _ _ Hview), Hnone.
  rewrite (attempted_all _ _ _ Hnone), <- app_assoc. reflexivity.
Qed.

(** X9.  After gists that are searched without incident, an entry of the
    listing that is no dict, or has no files key, or whose files is no
    dict, ends the search with a TypeError, a KeyError or an AttributeError
    as the case may be: the matches found before it are not returned, and
    nothing after it is requested. *)
Theorem malformed_gist_raises E data body p pre gist post gists e tr :
  well_formed_prefix E data body p pre (gist :: post) gists ->
  gist_shape_error gist = Some e ->
  search E (VDict body) tr =
    (Raise e,
     (tr ++ listing_event E (username_of body) tr
         :: map (fetch_event E data) (all_files gists))%list).
Proof.
  intros Hwf He.
  rewrite (search_after_prefix E data body p pre (gist :: post) gists tr Hwf);
    [|discriminate].
  cbn [for_in]. unfold bind at 1, search_gist, subscript.
  unfold gist_shape_error in He.
  destruct gist as [| | | | | |d]; try (injection He as <-; reflexivity).
  destruct (lookup "files" d) as [files|]; [|injection He as <-; reflexivity].
  unfold bind at 1, ret at 1, dict_values.
  destruct files; try discriminate; injection He as <-; reflexivity.
Qed.

Lemma files_loop_no_id E data username p d :
  serves E data ->
  re_compiles E p = true ->
  lookup "id" d = None ->
  forall fs files acc tr,
    view_all view_file fs = Some files ->
    first_failure E data files = None ->
    exists tr',
      for_in (map snd fs) (search_file E username (VStr p) (VDict d)) acc tr =
        (if existsb (file_matches E data p) files
         then Raise (KeyError "id")
         else Ok acc,
         tr').
Proof.
  intros Hs Hc Hid. induction fs as [|[k v] fs IH]; intros files acc tr Hview Hnone.
  - injection Hview as <-. now exists tr.
  - apply view_all_cons in Hview as (f & files' & Hf & Hrest & ->).
    apply view_file_some in Hf as (entries & u & -> & Hurl & ->).
    cbn [first_failure raw_url] in Hnone.
    cbn [existsb]. unfold file_matches at 1. cbn [raw_url].
    destruct (data (py_str E u)) as [r|err] eqn:Hdata; [|discriminate].
    assert (Hstep :
      search_file E username (VStr p) (VDict d) (VDict entries) acc tr =
        (if re_found E p (text r) then Raise (KeyError "id") else Ok acc,
         (tr ++ [{| ev_url := py_str E u; ev_outcome := data (py_str E u) |}])%list)).
    { unfold search_file, subscript. rewrite Hurl, Hid.
      unfold bind at 1, ret at 1.
      unfold bind at 1. rewrite (http_get_served _ _ _ _ Hs), Hdata.
      unfold bind at 1, re_search. rewrite Hc. unfold ret at 1.
      destruct (re_found E p (text r)); reflexivity. }
    cbn [map snd for_in]. unfold bind at 1. rewrite Hstep.
    destruct (re_found E p (text r)); cbn [orb].
    + eexists. reflexivity.
    + now apply IH.
Qed.

(** X10.  A gist without an id is searched like any other as long as none
    of its files matches: the search goes on with the gists after it.  The
    first matching file of such a gist ends the search with the KeyError of
    the missing id, and the matches found before are not returned. *)
Theorem missing_id_raises_on_match E data body p pre d fs files post gists tr :
  well_formed_prefix E data body p pre (VDict d :: post) gists ->
  lookup "id" d = None ->
  lookup "files" d = Some (VDict fs) ->
  view_all view_file fs = Some files ->
  first_failure E data files = None ->
  (existsb (file_matches E data p) files = true ->
     fst (search E (VDict body) tr) = Raise (KeyError "id")) /\
  (existsb (file_matches E data p) files = false ->
     forall gists',
       view_all view_gist post = Some gists' ->
       fst (search E (VDict body) tr) =
         match first_failure E data (all_files gists') with
         | None =>
             Ok (success_object (username_of body) (VStr p)
                   (map VStr (traversal_matches E data (username_of body) p gists
                              ++ traversal_matches E data (username_of body) p gists')))
         | Some err => Raise (RequestException err)
         end).
Proof.
  intros Hwf Hid Hfiles Hview Hnone.
  rewrite (search_after_prefix E data body p pre (VDict d :: post) gists tr Hwf);
    [|discriminate].
  destruct Hwf as [Hs Hp Hc _ _ _].
  set (acc := map VStr (traversal_matches E data (username_of body) p gists)).
  set (tr1 := (tr ++ _)%list).
  destruct (files_loop_no_id E data (username_of body) p d Hs Hc Hid
              fs files acc tr1 Hview Hnone) as [tr2 Hrun].
  assert (Hgist :
    search_gist E (username_of body) (VStr p) (VDict d) acc tr1 =
      for_in (map snd fs) (search_file E (username_of body) (VStr p) (VDict d))
        acc tr1).
  { unfold search_gist, subscript. now rewrite Hfiles. }
  assert (Hloop :
    for_in (VDict d :: post) (search_gist E (username_of body) (VStr p)) acc tr1 =
      if existsb (file_matches E data p) files
      then (Raise (KeyError "id"), tr2)
      else for_in post (search_gist E (username_of body) (VStr p)) acc tr2).
  { cbn [for_in]. unfold bind at 1. rewrite Hgist, Hrun.
    destruct (existsb (file_matches E data p) files); reflexivity. }
  rewrite Hloop.
  split; intros Hex; rewrite Hex; [reflexivity|].
  intros gists' Hpost.
  rewrite (gists_loop_run E data _ p Hs Hc post gists' acc tr2 Hpost).
  unfold acc. rewrite <- map_app.
  destruct (first_failure E data (all_files gists')); reflexivity.
Qed.

(** ** Status codes *)








Section Recode.

Variable E : Env.
Variable data : Dataset.
Variable status : string -> Z.
Hypothesis Hserves : serves E data.





End Recode.


(** * The further properties on the example upstreams *)

Ltac example_prefix :=
  constructor;
  [ intros ? ?; reflexivity
  | reflexivity
  | reflexivity
  | eexists; split; reflexivity
  | reflexivity
  | reflexivity ].

Lemma gists_for_user_swallows_http_errors_witness :
  fst (gists_for_user (fixed_env nobody_data) (VStr "nobody") []) = Ok not_found_body.
Proof.
  destruct (gists_for_user_swallows_http_errors (fixed_env nobody_data)
              (VStr "nobody") []
              {| status_code := 404; text := json_text not_found_body;
                 json := Some not_found_body; next_link := None |})
    as (Hrun & _); [reflexivity|].
  now rewrite Hrun.
Defined.

Lemma non_json_listing_raises_witness :
  fst (search (fixed_env gateway_data) (request_body "grace" "TODO") []) =
    Raise JSONDecodeError.
Proof.
  unfold request_body.
  rewrite (non_json_listing_raises (fixed_env gateway_data)
             [("username", VStr "grace"); ("pattern", VStr "TODO")] []
             {| status_code := 502; text := "Bad Gateway"; json := None;
                next_link := None |});
    reflexivity.
Defined.

Lemma search_rejects_non_object_body_witness :
  search (fixed_env alice_data) (VList [VStr "alice"; VStr "TODO"]) [] =
    (Raise AttributeError, []).
Proof.
  apply (search_rejects_non_object_body (fixed_env alice_data)
           (VList [VStr "alice"; VStr "TODO"]) []).
  reflexivity.
Defined.

Lemma failure_object_iff_no_gists_witness :
  fst (search (fixed_env bob_data) (request_body "bob" "TODO") []) = Ok failure_object /\
  fst (search (fixed_env nobody_data) (request_body "nobody" "TODO") []) =
    Ok failure_object /\
  fst (search (fixed_env alice_data) (request_body "alice" "TODO") []) <>
    Ok failure_object /\
  field "status"
        (fst (search (fixed_env nobody_data) (request_body "nobody" "TODO") [])) =
    Some (VStr "fail") /\
  field "status"
        (fst (search (fixed_env alice_data) (request_body "alice" "TODO") [])) =
    Some (VStr "success").
Proof.
  unfold request_body. split; [|split; [|split; [|split; reflexivity]]].
  - apply (failure_object_iff_no_gists (fixed_env bob_data)
             [("username", VStr "bob"); ("pattern", VStr "TODO")] []
             {| status_code := 200; text := json_text (VList []);
                json := Some (VList []); next_link := None |}
             (VList [])); [reflexivity|reflexivity|discriminate].
  - apply (failure_object_iff_no_gists (fixed_env nobody_data)
             [("username", VStr "nobody"); ("pattern", VStr "TODO")] []
             {| status_code := 404; text := json_text not_found_body;
                json := Some not_found_body; next_link := None |}
             not_found_body); [reflexivity|reflexivity|discriminate].
  - intros H.
    destruct (failure_object_iff_no_gists (fixed_env alice_data)
                [("username", VStr "alice"); ("pattern", VStr "TODO")] []
                {| status_code := 200; text := json_text alice_gists;
                   json := Some alice_gists; next_link := None |}
                alice_gists) as [Hto _]; [reflexivity|reflexivity|].
    exact (Hto H _ _ eq_refl).
Defined.

Lemma fetches_follow_listing_order_witness :
  exists rest later,
    map ev_url (snd (search (fixed_env alice_timeout_data)
                       (request_body "alice" "TODO") [])) =
      listing_of "alice" :: map ev_url rest /\
    raw_urls (fixed_env alice_timeout_data) (list_items alice_gists) =
      (map ev_url rest ++ later)%list.
Proof.
  destruct (fetches_follow_listing_order (fixed_env alice_timeout_data)
              [("username", VStr "alice"); ("pattern", VStr "TODO")] []
              {| status_code := 200; text := json_text alice_gists;
                 json := Some alice_gists; next_link := None |}
              (list_items alice_gists))
    as (rest & later & Htr & Hu & _); [reflexivity|reflexivity|discriminate|].
  exists rest, later. split; [|exact Hu].
  unfold request_body. now rewrite Htr.
Defined.


Lemma success_needs_usable_pattern_witness :
  usable_pattern (fixed_env alice_data) (VStr "TODO") = true.
Proof.
  apply (success_needs_usable_pattern (fixed_env alice_data)
           [("username", VStr "alice"); ("pattern", VStr "TODO")] []
           {| status_code := 200; text := json_text alice_gists;
              json := Some alice_gists; next_link := None |}
           (list_items alice_gists)
           (success_object (VStr "alice") (VStr "TODO")
              [VStr g1_url; VStr g1_url; VStr g2_url]));
    [reflexivity|reflexivity|discriminate|reflexivity].
Defined.


Lemma malformed_gist_raises_witness :
  fst (search (fixed_env erin_data) (request_body "erin" "TODO") []) = Raise TypeError.
Proof.
  unfold request_body.
  rewrite (malformed_gist_raises (fixed_env erin_data) erin_data
             [("username", VStr "erin"); ("pattern", VStr "TODO")] "TODO"
             [gist_entry "erin" "g1" ["a.py"]] (VStr "g2") []
             (refs_of (VList [gist_entry "erin" "g1" ["a.py"]])) TypeError []);
    [reflexivity|example_prefix|reflexivity].
Defined.

Lemma missing_id_raises_on_match_witness :
  fst (search (fixed_env dave_data) (request_body "dave" "TODO") []) =
    Raise (KeyError "id") /\
  fst (search (fixed_env dave_data) (request_body "dave" "FIXME") []) =
    Ok (success_object (VStr "dave") (VStr "FIXME")
          [VStr "https://gist.github.com/dave/g1"]).
Proof.
  unfold request_body. split.
  - destruct (missing_id_raises_on_match (fixed_env dave_data) dave_data
                [("username", VStr "dave"); ("pattern", VStr "TODO")] "TODO"
                [gist_entry "dave" "g1" ["a.py"]]
                [("files", VDict [file_entry "dave" "g2" "b.py"])]
                [file_entry "dave" "g2" "b.py"]
                [{| file_name := "b.py"; raw_url := VStr (raw_of "dave" "g2" "b.py") |}]
                [] (refs_of (VList [gist_entry "dave" "g1" ["a.py"]])) [])
      as (Hmatch & _); [example_prefix|reflexivity..|].
    apply Hmatch. reflexivity.
  - destruct (missing_id_raises_on_match (fixed_env dave_data) dave_data
                [("username", VStr "dave"); ("pattern", VStr "FIXME")] "FIXME"
                [gist_entry "dave" "g1" ["a.py"]]
                [("files", VDict [file_entry "dave" "g2" "b.py"])]
                [file_entry "dave" "g2" "b.py"]
                [{| file_name := "b.py"; raw_url := VStr (raw_of "dave" "g2" "b.py") |}]
                [] (refs_of (VList [gist_entry "dave" "g1" ["a.py"]])) [])
      as (_ & Hnone); [example_prefix|reflexivity..|].
    rewrite (Hnone eq_refl [] eq_refl). reflexivity.
Defined.

